(** * Bayesian optimisation of topic-model hyperparameters

    A shallow embedding of [optopic/optimization/optimizer.py]: the class
    [Optimizer] with its constructor, the parameter validator
    [check_BO_parameters], the evaluation harness [_objective_function]
    and the two ask/tell loops [optimize] and [restart_optimize].

    Python objects that the optimizer only passes around (the topic model,
    the dataset, the metrics, the skopt backend, floats) are kept abstract
    in the class [Externals]; everything the optimizer itself does (the
    mutation of [self], the exceptions of indexing and of [%], the calls it
    makes and the order in which it makes them) is written out. *)

From Stdlib Require Import ZArith QArith Ascii String.
From stdpp Require Import base gmap strings pretty list sorting.

Open Scope Z_scope.

(** ** The fragment of Python the optimizer relies on *)

Module Py.

Inductive exn :=
| IndexError | KeyError | ZeroDivisionError
| UnboundLocalError | AttributeError | ExternalError.

(** [len(l)] *)
Definition len {A} (l : list A) : Z := Z.of_nat (length l).

(** [l[i]]: negative indices count from the end, anything else out of
    range is an [IndexError] (here [None]). *)
Definition index {A} (l : list A) (i : Z) : option A :=
  if 0 <=? i then l !! Z.to_nat i
  else if - len l <=? i then l !! Z.to_nat (len l + i)
  else None.

(** [range(a, b)] and [range(n)] *)
Definition range2 (a b : Z) : list Z := seqZ a (b - a).
Definition range (n : Z) : list Z := range2 0 n.

(** [str(i)] on an int *)
Definition str (i : Z) : string := pretty i.

(** [i % s] on ints: the sign follows the divisor, as [Z.modulo] does,
    and a zero divisor raises [ZeroDivisionError] (here [None]). *)
Definition mod_ (i s : Z) : option Z :=
  if s =? 0 then None else Some (i `mod` s).

(** [s.endswith(suffix)] *)
Definition endswith (s suffix : string) : bool :=
  let n := String.length s in
  let m := String.length suffix in
  if (m <=? n)%nat then String.eqb (String.substring (n - m) m s) suffix
  else false.

(** [s[:-k]] for a positive literal [k] *)
Definition drop_last (k : nat) (s : string) : string :=
  String.substring 0 (String.length s - k) s.

(** [s[-1]]; [None] stands for the [IndexError] on the empty string. *)
Definition last_char (s : string) : option ascii :=
  match String.length s with
  | O => None
  | S n => String.get n s
  end.

(** [a if a else b]: the truth value of ints, strings, bools and dicts,
    with [None] for an argument left at its default [None]. *)
Definition or_else {A} (truthy : A → bool) (a : option A) (b : A) : A :=
  match a with
  | Some v => if truthy v then v else b
  | None => b
  end.

Definition truthy_int (z : Z) : bool := negb (z =? 0).
Definition truthy_str (s : string) : bool := negb (String.eqb s "").
Definition truthy_bool (b : bool) : bool := b.
Definition truthy_obj {A} (_ : A) : bool := true.

(** [x in l] for a list of strings *)
Definition in_list (x : string) (l : list string) : bool :=
  existsb (String.eqb x) l.

End Py.

(** ** What the optimizer is given

    The objects below come from outside the file: the topic model with its
    [train_model], the metrics with [score] and their class name, numpy's
    floats with unary minus, subtraction and [np.median], the clock, the
    skopt optimizer with [ask] and [tell], and the loaders used on restart.
    [World] is whatever their results depend on (random seeds, the clock). *)

Class Externals := {
  Value : Type;
  Dimension : Type;
  Model : Type;
  Dataset : Type;
  Kernel : Type;
  Output : Type;
  Metric : Type;
  MetricAttributes : Type;
  PyFloat : Type;
  World : Type;
  Backend : Type;
  TellResult : Type;
  fneg : PyFloat → PyFloat;
  fsub : PyFloat → PyFloat → PyFloat;
  median : list PyFloat → PyFloat;
  class_name : Metric → string;
  score : Metric → Output → PyFloat;
  train_model :
    Model → Dataset → gmap string Value → Z → bool → bool →
    World → option Output * World;
  time_time : World → PyFloat * World;
  ask : Backend → list Value * Backend;
  tell : list Value → PyFloat → Backend → TellResult * Backend;
  func_vals : TellResult → list PyFloat;
  load_metric : string → MetricAttributes → Metric;
  load_dataset : string → Dataset;
}.

Section Optimizer.

Context `{Ext : Externals}.

(** An entry of a per-metric history: the list of raw scores of one
    iteration, the single float that [optimize] assigns for a seed point,
    or the int that [restart_optimize] stores for a metric that was not
    tracked before. *)
Inductive run_entry :=
| RunList (l : list PyFloat)
| RunFloat (f : PyFloat)
| RunInt (z : Z).

(** ** The attributes of an [Optimizer] *)

Record Optimizer := {
  model : Model;
  dataset : Dataset;
  metric : Metric;
  search_space : gmap string Dimension;
  current_call : Z;
  hyperparameters : list string;
  extra_metrics : list Metric;
  optimization_type : string;
  dict_model_runs : gmap string (gmap string run_entry);
  number_of_call : Z;
  n_random_starts : Z;
  initial_point_generator : string;
  model_runs : Z;
  surrogate_model : string;
  kernel : Kernel;
  acq_func : string;
  random_state : option Z;
  x0 : list (list Value);
  y0 : list PyFloat;
  save_path : string;
  save_step : Z;
  save_name : string;
  save_models : bool;
  early_stop : bool;
  early_step : Z;
  plot_model : bool;
  plot_best_seen : bool;
  plot_name : string;
  log_scale_plot : bool;
  (** set by [check_BO_parameters] only, absent ([None]) before *)
  model_path_models : option string;
}.

(** Class attributes *)
Definition topk : Z := 10.
Definition topic_word_matrix : bool := true.
Definition topic_document_matrix : bool := true.

Definition set_current_call (v : Z) (s : Optimizer) : Optimizer :=
  {| model := model s; dataset := dataset s; metric := metric s;
     search_space := search_space s; current_call := v;
     hyperparameters := hyperparameters s; extra_metrics := extra_metrics s;
     optimization_type := optimization_type s;
     dict_model_runs := dict_model_runs s;
     number_of_call := number_of_call s; n_random_starts := n_random_starts s;
     initial_point_generator := initial_point_generator s;
     model_runs := model_runs s; surrogate_model := surrogate_model s;
     kernel := kernel s; acq_func := acq_func s;
     random_state := random_state s; x0 := x0 s; y0 := y0 s;
     save_path := save_path s; save_step := save_step s;
     save_name := save_name s; save_models := save_models s;
     early_stop := early_stop s; early_step := early_step s;
     plot_model := plot_model s; plot_best_seen := plot_best_seen s;
     plot_name := plot_name s; log_scale_plot := log_scale_plot s;
     model_path_models := model_path_models s |}.

Definition set_number_of_call (v : Z) (s : Optimizer) : Optimizer :=
  {| model := model s; dataset := dataset s; metric := metric s;
     search_space := search_space s; current_call := current_call s;
     hyperparameters := hyperparameters s; extra_metrics := extra_metrics s;
     optimization_type := optimization_type s;
     dict_model_runs := dict_model_runs s;
     number_of_call := v; n_random_starts := n_random_starts s;
     initial_point_generator := initial_point_generator s;
     model_runs := model_runs s; surrogate_model := surrogate_model s;
     kernel := kernel s; acq_func := acq_func s;
     random_state := random_state s; x0 := x0 s; y0 := y0 s;
     save_path := save_path s; save_step := save_step s;
     save_name := save_name s; save_models := save_models s;
     early_stop := early_stop s; early_step := early_step s;
     plot_model := plot_model s; plot_best_seen := plot_best_seen s;
     plot_name := plot_name s; log_scale_plot := log_scale_plot s;
     model_path_models := model_path_models s |}.

Definition set_dict_model_runs (v : gmap string (gmap string run_entry))
    (s : Optimizer) : Optimizer :=
  {| model := model s; dataset := dataset s; metric := metric s;
     search_space := search_space s; current_call := current_call s;
     hyperparameters := hyperparameters s; extra_metrics := extra_metrics s;
     optimization_type := optimization_type s;
     dict_model_runs := v;
     number_of_call := number_of_call s; n_random_starts := n_random_starts s;
     initial_point_generator := initial_point_generator s;
     model_runs := model_runs s; surrogate_model := surrogate_model s;
     kernel := kernel s; acq_func := acq_func s;
     random_state := random_state s; x0 := x0 s; y0 := y0 s;
     save_path := save_path s; save_step := save_step s;
     save_name := save_name s; save_models := save_models s;
     early_stop := early_stop s; early_step := early_step s;
     plot_model := plot_model s; plot_best_seen := plot_best_seen s;
     plot_name := plot_name s; log_scale_plot := log_scale_plot s;
     model_path_models := model_path_models s |}.

Definition set_plot_name (v : string) (s : Optimizer) : Optimizer :=
  {| model := model s; dataset := dataset s; metric := metric s;
     search_space := search_space s; current_call := current_call s;
     hyperparameters := hyperparameters s; extra_metrics := extra_metrics s;
     optimization_type := optimization_type s;
     dict_model_runs := dict_model_runs s;
     number_of_call := number_of_call s; n_random_starts := n_random_starts s;
     initial_point_generator := initial_point_generator s;
     model_runs := model_runs s; surrogate_model := surrogate_model s;
     kernel := kernel s; acq_func := acq_func s;
     random_state := random_state s; x0 := x0 s; y0 := y0 s;
     save_path := save_path s; save_step := save_step s;
     save_name := save_name s; save_models := save_models s;
     early_stop := early_stop s; early_step := early_step s;
     plot_model := plot_model s; plot_best_seen := plot_best_seen s;
     plot_name := v; log_scale_plot := log_scale_plot s;
     model_path_models := model_path_models s |}.

Definition set_save_name (v : string) (s : Optimizer) : Optimizer :=
  {| model := model s; dataset := dataset s; metric := metric s;
     search_space := search_space s; current_call := current_call s;
     hyperparameters := hyperparameters s; extra_metrics := extra_metrics s;
     optimization_type := optimization_type s;
     dict_model_runs := dict_model_runs s;
     number_of_call := number_of_call s; n_random_starts := n_random_starts s;
     initial_point_generator := initial_point_generator s;
     model_runs := model_runs s; surrogate_model := surrogate_model s;
     kernel := kernel s; acq_func := acq_func s;
     random_state := random_state s; x0 := x0 s; y0 := y0 s;
     save_path := save_path s; save_step := save_step s;
     save_name := v; save_models := save_models s;
     early_stop := early_stop s; early_step := early_step s;
     plot_model := plot_model s; plot_best_seen := plot_best_seen s;
     plot_name := plot_name s; log_scale_plot := log_scale_plot s;
     model_path_models := model_path_models s |}.

Definition set_save_path (v : string) (s : Optimizer) : Optimizer :=
  {| model := model s; dataset := dataset s; metric := metric s;
     search_space := search_space s; current_call := current_call s;
     hyperparameters := hyperparameters s; extra_metrics := extra_metrics s;
     optimization_type := optimization_type s;
     dict_model_runs := dict_model_runs s;
     number_of_call := number_of_call s; n_random_starts := n_random_starts s;
     initial_point_generator := initial_point_generator s;
     model_runs := model_runs s; surrogate_model := surrogate_model s;
     kernel := kernel s; acq_func := acq_func s;
     random_state := random_state s; x0 := x0 s; y0 := y0 s;
     save_path := v; save_step := save_step s;
     save_name := save_name s; save_models := save_models s;
     early_stop := early_stop s; early_step := early_step s;
     plot_model := plot_model s; plot_best_seen := plot_best_seen s;
     plot_name := plot_name s; log_scale_plot := log_scale_plot s;
     model_path_models := model_path_models s |}.

Definition set_model_path_models (v : option string) (s : Optimizer)
    : Optimizer :=
  {| model := model s; dataset := dataset s; metric := metric s;
     search_space := search_space s; current_call := current_call s;
     hyperparameters := hyperparameters s; extra_metrics := extra_metrics s;
     optimization_type := optimization_type s;
     dict_model_runs := dict_model_runs s;
     number_of_call := number_of_call s; n_random_starts := n_random_starts s;
     initial_point_generator := initial_point_generator s;
     model_runs := model_runs s; surrogate_model := surrogate_model s;
     kernel := kernel s; acq_func := acq_func s;
     random_state := random_state s; x0 := x0 s; y0 := y0 s;
     save_path := save_path s; save_step := save_step s;
     save_name := save_name s; save_models := save_models s;
     early_stop := early_stop s; early_step := early_step s;
     plot_model := plot_model s; plot_best_seen := plot_best_seen s;
     plot_name := plot_name s; log_scale_plot := log_scale_plot s;
     model_path_models := v |}.

(** Modelled from the spec: [BestEvaluation] and its [save] live in
    [optopic/optimization/optimizer_tool.py], which is not part of the
    sources at hand. The object is kept as the record of what its
    constructor receives: the optimizer, the result of the last [tell] and
    the timings (the "full OptimizationState" of the Checkpoint Manager). *)
Record BestEvaluation := {
  be_optimizer : Optimizer;
  be_resultsBO : TellResult;
  be_times : list PyFloat;
}.

(** The rest of [optimizer_tool]: how the skopt optimizer is built from the
    configuration and the early-stopping test are taken as parameters. *)
Class OptimizerTool := {
  choose_optimizer : Optimizer → bool → Backend;
  early_condition : list PyFloat → Z → Z → bool;
}.

Context `{Tool : OptimizerTool}.

(** ** Observable behaviour

    Every call that leaves the optimizer is recorded, in order. [EvSave]
    also carries the loop index at which the checkpoint was written,
    [EvHarness] marks a return of [_objective_function] with the candidate,
    the raw primary scores and the value returned, and [EvEarlyCheck] a
    call of [early_condition]. *)
Inductive event :=
| EvPrint (msg : string)
| EvMkdir (path : string)
| EvTrain (params : gmap string Value)
| EvSaveModel (path : string)
| EvPlotRuns (name : string)
| EvPlotBest (name : string)
| EvHarness (x : list Value) (runs : list PyFloat) (result : PyFloat)
| EvAsk (x : list Value)
| EvTell (x : list Value) (f_val : PyFloat)
| EvSave (i : Z) (path : string) (results : BestEvaluation)
| EvEarlyCheck (i : Z).

Record State := {
  self : Optimizer;
  world : World;
  trace : list event;
}.

(** ** Statements: state passing with exceptions *)

Inductive result (A : Type) :=
| Ok (a : A) (st : State)
| Raise (e : Py.exn) (st : State).
Arguments Ok {A} a st.
Arguments Raise {A} e st.

Definition M (A : Type) : Type := State → result A.

#[global] Instance M_ret : MRet M := λ A a st, Ok a st.
#[global] Instance M_bind : MBind M := λ A B k m st,
  match m st with
  | Ok a st' => k a st'
  | Raise e st' => Raise e st'
  end.

Definition state_of {A} (r : result A) : State :=
  match r with Ok _ st => st | Raise _ st => st end.

Definition raise {A} (e : Py.exn) : M A := λ st, Raise e st.

Definition get_self : M Optimizer := λ st, Ok (self st) st.

Definition modify_self (f : Optimizer → Optimizer) : M unit := λ st,
  Ok tt {| self := f (self st); world := world st; trace := trace st |}.

Definition log (e : event) : M unit := λ st,
  Ok tt {| self := self st; world := world st; trace := trace st ++ [e] |}.

Definition print (msg : string) : M unit := log (EvPrint msg).

Definition external {A} (f : World → A * World) : M A := λ st,
  let '(a, w) := f (world st) in
  Ok a {| self := self st; world := w; trace := trace st |}.

Definition from_option {A} (e : Py.exn) (o : option A) : M A :=
  match o with
  | Some a => mret a
  | None => raise e
  end.

Definition when (b : bool) (m : M unit) : M unit :=
  if b then m else mret tt.

(** [for i in idx: body], with [break]; [L] holds the local variables that
    the body assigns. *)
Inductive ctrl := Continue | Break.

Fixpoint for_each {L} (body : Z → L → M (ctrl * L)) (idx : list Z) (l : L)
    : M L :=
  match idx with
  | [] => mret l
  | i :: rest =>
      '(c, l') ← body i l;
      match c with
      | Break => mret l'
      | Continue => for_each body rest l'
      end
  end.

(** [for a in l: body] without [break], and a list comprehension whose
    element expression can raise. *)
Fixpoint for_in {A} (body : A → M unit) (l : list A) : M unit :=
  match l with
  | [] => mret tt
  | a :: rest => body a;; for_in body rest
  end.

Fixpoint comprehension {A B} (f : A → M B) (l : list A) : M (list B) :=
  match l with
  | [] => mret []
  | a :: rest => b ← f a; bs ← comprehension f rest; mret (b :: bs)
  end.

(** ** [Optimizer.__init__] and [Optimizer.check_BO_parameters] *)

Record InitArgs := {
  a_model : Model;
  a_dataset : Dataset;
  a_metric : Metric;
  a_search_space : gmap string Dimension;
  a_extra_metrics : list Metric;
  a_number_of_call : Z;
  a_n_random_starts : Z;
  a_initial_point_generator : string;
  a_optimization_type : string;
  a_model_runs : Z;
  a_surrogate_model : string;
  a_kernel : Kernel;
  a_acq_func : string;
  a_random_state : option Z;
  a_x0 : list (list Value);
  a_y0 : list PyFloat;
  a_save_models : bool;
  a_save_step : Z;
  a_save_name : string;
  a_save_path : string;
  a_early_stop : bool;
  a_early_step : Z;
  a_plot_best_seen : bool;
  a_plot_model : bool;
  a_plot_name : string;
  a_log_scale_plot : bool;
}.

(** The defaults of the signature; the kernel's default is a sklearn
    object and is passed in. *)
Definition default_args (m : Model) (d : Dataset) (mt : Metric)
    (space : gmap string Dimension) (k : Kernel) : InitArgs :=
  {| a_model := m; a_dataset := d; a_metric := mt; a_search_space := space;
     a_extra_metrics := []; a_number_of_call := 5; a_n_random_starts := 0;
     a_initial_point_generator := "lhs"; a_optimization_type := "Maximize";
     a_model_runs := 5; a_surrogate_model := "RF"; a_kernel := k;
     a_acq_func := "LCB"; a_random_state := None; a_x0 := []; a_y0 := [];
     a_save_models := false; a_save_step := 1; a_save_name := "result";
     a_save_path := "results/"; a_early_stop := false; a_early_step := 5;
     a_plot_best_seen := false; a_plot_model := false;
     a_plot_name := "B0_plot"; a_log_scale_plot := false |}.

(** [list(sorted(d.keys()))]: strings are compared character by
    character, as [String.le] does. *)
Definition sorted_keys {A} (d : gmap string A) : list string :=
  merge_sort String.le (map_to_list d).*1.

(** The assignments [self.model = model] ... [self.log_scale_plot = ...] *)
Definition new_optimizer (a : InitArgs) : Optimizer :=
  {| model := a_model a; dataset := a_dataset a; metric := a_metric a;
     search_space := a_search_space a; current_call := 0;
     hyperparameters := sorted_keys (a_search_space a);
     extra_metrics := a_extra_metrics a;
     optimization_type := a_optimization_type a;
     dict_model_runs := ∅;
     number_of_call := a_number_of_call a;
     n_random_starts := a_n_random_starts a;
     initial_point_generator := a_initial_point_generator a;
     model_runs := a_model_runs a; surrogate_model := a_surrogate_model a;
     kernel := a_kernel a; acq_func := a_acq_func a;
     random_state := a_random_state a; x0 := a_x0 a; y0 := a_y0 a;
     save_path := a_save_path a; save_step := a_save_step a;
     save_name := a_save_name a; save_models := a_save_models a;
     early_stop := a_early_stop a; early_step := a_early_step a;
     plot_model := a_plot_model a; plot_best_seen := a_plot_best_seen a;
     plot_name := a_plot_name a; log_scale_plot := a_log_scale_plot a;
     model_path_models := None |}.

(** The value returned is [Some (-1)], [Some 0] or Python's [None].
    The fields tested with [isinstance(_, int)] are ints in [Optimizer], so
    these four tests are passed and have no branch here. *)
Definition check_BO_parameters : M (option Z) :=
  s ← get_self;
  if negb (Py.in_list (optimization_type s) ["Maximize"; "Minimize"]) then
    print "Error: optimization type must be Maximize or Minimize";;
    mret (Some (-1))
  else if negb (Py.in_list (surrogate_model s) ["RF"; "RS"; "GP"; "ET"]) then
    print "Error: surrogate model must be RF, ET, RS or GP";;
    mret (Some (-1))
  else if negb (Py.in_list (acq_func s) ["PI"; "EI"; "LCB"]) then
    print "Error: acquisition function must be PI, EI or LCB";;
    mret (Some (-1))
  else if number_of_call s <=? 0 then
    print "Error: number_of_call can't be <= 0";;
    mret (Some (-1))
  else if number_of_call s - Py.len (x0 s) <=? 0 then
    print "Error: number_of_call is less then len(x0)";;
    mret None
  else if negb (Py.in_list (initial_point_generator s)
                  ["lhs"; "sobol"; "halton"; "hammersly"; "grid"; "random"])
  then
    print "Error: wrong initial_point_generator";;
    mret (Some (-1))
  else
    when (Py.endswith (plot_name s) ".png")
      (modify_self (set_plot_name (Py.drop_last 4 (plot_name s))));;
    when (Py.endswith (save_name s) ".json")
      (modify_self (set_save_name (Py.drop_last 4 (save_name s))));;
    c ← from_option Py.IndexError (Py.last_char (save_path s));
    when (negb (Ascii.eqb c "/"))
      (modify_self (set_save_path (save_path s +:+ "/")));;
    s ← get_self;
    when (save_models s)
      (modify_self (set_model_path_models (Some (save_path s +:+ "models/")));;
       log (EvMkdir (save_path s +:+ "models/")));;
    mret (Some 0).

Definition init_body (a : InitArgs) : M unit :=
  log (EvMkdir (a_save_path a));;
  modify_self (λ s, set_dict_model_runs
    (<[class_name (a_metric a) := ∅]> (dict_model_runs s)) s);;
  for_in (λ extra_metric, modify_self (λ s, set_dict_model_runs
    (<[class_name extra_metric := ∅]> (dict_model_runs s)) s))
    (a_extra_metrics a);;
  r ← check_BO_parameters;
  when (bool_decide (r = Some (-1)))
    (print "ERROR: wrong inizialitation of BO parameters").

(** Construction: the new object with its attributes assigned, then the
    body above. The constructor has no [raise]: what it returns is the
    object, whatever the validator said. *)
Definition __init__ (a : InitArgs) (w : World) : result unit :=
  init_body a {| self := new_optimizer a; world := w; trace := [] |}.

(** ** The evaluation harness [Optimizer._objective_function] *)

(** [self.dict_model_runs[name][key] = v] *)
Definition dict_store (name key : string) (v : run_entry) : M unit :=
  s ← get_self;
  inner ← from_option Py.KeyError (dict_model_runs s !! name);
  modify_self
    (set_dict_model_runs (<[name := <[key := v]> inner]> (dict_model_runs s))).

(** Lines 137-139: the candidate becomes a dictionary, by position. *)
Definition label_parameters (x : list Value) : M (gmap string Value) :=
  s ← get_self;
  for_each (λ i params,
      v ← from_option Py.IndexError (Py.index x i);
      name ← from_option Py.IndexError (Py.index (hyperparameters s) i);
      mret (Continue, <[name := v]> params))
    (Py.range (Py.len (hyperparameters s))) ∅.

Record run_locals := {
  different_model_runs : list PyFloat;
  different_model_runs_extra_metrics : list (list PyFloat);
}.

(** Lines 145-164: one training and scoring of the model. *)
Definition model_run (params : gmap string Value) (i : Z) (l : run_locals)
    : M (ctrl * run_locals) :=
  s ← get_self;
  log (EvTrain params);;
  trained ← external (train_model (model s) (dataset s) params
                        topk topic_word_matrix topic_document_matrix);
  model_output ← from_option Py.ExternalError trained;
  let l' :=
    {| different_model_runs :=
         different_model_runs l ++ [score (metric s) model_output];
       different_model_runs_extra_metrics :=
         zip_with (λ runs extra_metric,
                     runs ++ [score extra_metric model_output])
           (different_model_runs_extra_metrics l) (extra_metrics s) |} in
  when (save_models s)
    (let name := Py.str (current_call s) +:+ "_" +:+ Py.str i in
     path ← from_option Py.AttributeError (model_path_models s);
     log (EvSaveModel (path +:+ name)));;
  mret (Continue, l').

Definition _objective_function (x : list Value) : M PyFloat :=
  params ← label_parameters x;
  s ← get_self;
  l ← for_each (model_run params) (Py.range (model_runs s))
        {| different_model_runs := [];
           different_model_runs_extra_metrics :=
             (λ _, []) <$> extra_metrics s |};
  let key := "iteration_" +:+ Py.str (current_call s) in
  dict_store (class_name (metric s)) key (RunList (different_model_runs l));;
  for_in (λ '(extra_metric, runs),
            dict_store (class_name extra_metric) key (RunList runs))
    (zip (extra_metrics s) (different_model_runs_extra_metrics l));;
  let result := median (different_model_runs l) in
  let result :=
    if String.eqb (optimization_type s) "Maximize" then fneg result
    else result in
  when (plot_model s)
    (let name_plot := save_path s +:+ plot_name s +:+ "_model_runs_"
                      +:+ class_name (metric s) in
     log (EvPlotRuns name_plot);;
     for_in (λ _, log (EvPlotRuns name_plot)) (extra_metrics s));;
  log (EvHarness x (different_model_runs l) result);;
  mret result.

(** ** The ask/tell loop [Optimizer.optimize] *)

Record loop_locals := {
  opt : Backend;
  time_eval : list PyFloat;
  results : option BestEvaluation;
}.

(** Lines 230-257, which lines 350-375 of [restart_optimize] repeat word
    for word: tell, timing, plot, checkpoint, early stop, next call. *)
Definition tell_and_record (i : Z) (start_time : PyFloat)
    (next_x : list Value) (f_val : PyFloat) (l : loop_locals)
    : M (ctrl * loop_locals) :=
  log (EvTell next_x f_val);;
  let '(res, opt') := tell next_x f_val (opt l) in
  end_time ← external time_time;
  let total_time_function := fsub end_time start_time in
  let time_eval' := time_eval l ++ [total_time_function] in
  s ← get_self;
  when (plot_best_seen s)
    (log (EvPlotBest (save_path s +:+ plot_name s +:+ "_best_seen")));;
  let results' :=
    {| be_optimizer := s; be_resultsBO := res; be_times := time_eval' |} in
  r ← from_option Py.ZeroDivisionError (Py.mod_ i (save_step s));
  when (r =? 0)
    (log (EvSave i (save_path s +:+ save_name s +:+ ".json") results'));;
  let l' :=
    {| opt := opt'; time_eval := time_eval'; results := Some results' |} in
  stop ← ((if (Py.len (x0 s) <=? i) && early_stop s then
            log (EvEarlyCheck i);;
            mret (early_condition (func_vals res) (early_step s)
                    (n_random_starts s))
           else mret false) : M bool);
  if (stop : bool) then
    print "Stop because of early stopping condition";;
    mret (Break, l')
  else
    modify_self (λ s, set_current_call (current_call s + 1) s);;
    mret (Continue, l').

Definition with_opt (o : Backend) (l : loop_locals) : loop_locals :=
  {| opt := o; time_eval := time_eval l; results := results l |}.

Definition optimize_body (i : Z) (l : loop_locals) : M (ctrl * loop_locals) :=
  s ← get_self;
  print ("Current call:  " +:+ Py.str (current_call s));;
  start_time ← external time_time;
  '(next_x, f_val, l) ←
    (if i <? Py.len (x0 s) then
       next_x ← from_option Py.IndexError (Py.index (x0 s) i);
       if Py.len (y0 s) =? 0 then
         y ← from_option Py.IndexError (Py.index (y0 s) i);
         dict_store (class_name (metric s)) ("iteration_" +:+ Py.str i)
           (RunFloat y);;
         f_val ← _objective_function next_x;
         mret (next_x, f_val, l)
       else
         y ← from_option Py.IndexError (Py.index (y0 s) i);
         mret (next_x,
               if String.eqb (optimization_type s) "Maximize" then fneg y
               else y,
               l)
     else
       let '(next_x, opt') := ask (opt l) in
       log (EvAsk next_x);;
       f_val ← _objective_function next_x;
       mret (next_x, f_val, with_opt opt' l));
  tell_and_record i start_time next_x f_val l.

Definition optimize : M BestEvaluation :=
  s ← get_self;
  l ← for_each optimize_body (Py.range (number_of_call s))
        {| opt := choose_optimizer s false; time_eval := [];
           results := None |};
  from_option Py.UnboundLocalError (results l).

(** ** Restart from a checkpoint: [Optimizer.restart_optimize] *)

(** The dictionary read back from a checkpoint. The entries that the source
    passes through [eval] (the search space and the kernel) are held as the
    objects they evaluate to. *)
Record BestObject := {
  bo_search_space : gmap string Dimension;
  bo_acq_func : string;
  bo_surrogate_model : string;
  bo_kernel : Kernel;
  bo_optimization_type : string;
  bo_model_runs : Z;
  bo_save_models : bool;
  bo_save_step : Z;
  bo_save_path : string;
  bo_early_stop : bool;
  bo_early_step : Z;
  bo_plot_model : bool;
  bo_plot_best_seen : bool;
  bo_plot_name : string;
  bo_log_scale_plot : bool;
  bo_metric_attributes : MetricAttributes;
  bo_metric_name : string;
  bo_dataset_path : string;
  bo_time : list PyFloat;
  bo_dict_model_runs : gmap string (gmap string run_entry);
  bo_x_iters : gmap string (list Value);
  bo_f_val : list PyFloat;
}.

(** The arguments; [None] is the default [None] of the signature. *)
Record RestartArgs := {
  r_BestObject : BestObject;
  r_number_of_call : Z;
  r_model : Model;
  r_metric : option Metric;
  r_extra_metrics : list Metric;
  r_acq_func : option string;
  r_surrogate_model : option string;
  r_kernel : option Kernel;
  r_optimization_type : option string;
  r_model_runs : option Z;
  r_save_models : option bool;
  r_save_step : option Z;
  r_save_name : option string;
  r_save_path : option string;
  r_early_stop : option bool;
  r_early_step : option Z;
  r_plot_model : option bool;
  r_plot_best_seen : option bool;
  r_plot_name : option string;
  r_log_scale_plot : option bool;
  r_search_space : option (gmap string Dimension);
}.

Definition truthy_dict {A} (d : gmap string A) : bool :=
  negb (bool_decide (d = ∅)).

(** Lines 284-315: the attributes that are assigned again. [save_name] is
    an argument but is not assigned; [hyperparameters], [x0], [y0],
    [n_random_starts], [initial_point_generator] and [random_state] keep
    the values of the constructor. *)
Definition reinitialize (a : RestartArgs) (s : Optimizer) : Optimizer :=
  let B := r_BestObject a in
  {| model := r_model a;
     dataset := load_dataset (bo_dataset_path B);
     metric :=
       match r_metric a with
       | None => load_metric (bo_metric_name B) (bo_metric_attributes B)
       | Some m => m
       end;
     search_space :=
       Py.or_else truthy_dict (r_search_space a) (bo_search_space B);
     current_call := current_call s;
     hyperparameters := hyperparameters s;
     extra_metrics := r_extra_metrics a;
     optimization_type :=
       Py.or_else Py.truthy_str (r_optimization_type a)
         (bo_optimization_type B);
     dict_model_runs := dict_model_runs s;
     number_of_call := number_of_call s;
     n_random_starts := n_random_starts s;
     initial_point_generator := initial_point_generator s;
     model_runs := Py.or_else Py.truthy_int (r_model_runs a) (bo_model_runs B);
     surrogate_model :=
       Py.or_else Py.truthy_str (r_surrogate_model a) (bo_surrogate_model B);
     kernel := Py.or_else Py.truthy_obj (r_kernel a) (bo_kernel B);
     acq_func := Py.or_else Py.truthy_str (r_acq_func a) (bo_acq_func B);
     random_state := random_state s;
     x0 := x0 s;
     y0 := y0 s;
     save_path := Py.or_else Py.truthy_str (r_save_path a) (bo_save_path B);
     save_step := Py.or_else Py.truthy_int (r_save_step a) (bo_save_step B);
     save_name := save_name s;
     save_models :=
       Py.or_else Py.truthy_bool (r_save_models a) (bo_save_models B);
     early_stop := Py.or_else Py.truthy_bool (r_early_stop a) (bo_early_stop B);
     early_step := Py.or_else Py.truthy_int (r_early_step a) (bo_early_step B);
     plot_model := Py.or_else Py.truthy_bool (r_plot_model a) (bo_plot_model B);
     plot_best_seen :=
       Py.or_else Py.truthy_bool (r_plot_best_seen a) (bo_plot_best_seen B);
     plot_name := Py.or_else Py.truthy_str (r_plot_name a) (bo_plot_name B);
     log_scale_plot :=
       Py.or_else Py.truthy_bool (r_log_scale_plot a) (bo_log_scale_plot B);
     model_path_models := model_path_models s |}.

(** Lines 330-334: a history of zeros for an extra metric that the
    checkpoint does not know. *)
Definition zero_history (k : Z) : gmap string run_entry :=
  foldl (λ d i, <["iteration_" +:+ Py.str i := RunInt 0]> d) ∅ (Py.range k).

Definition add_missing_metrics (k : Z) (extra : list Metric)
    (d : gmap string (gmap string run_entry))
    : gmap string (gmap string run_entry) :=
  foldl (λ d m,
           match d !! class_name m with
           | Some _ => d
           | None => <[class_name m := zero_history k]> d
           end) d extra.

(** Lines 336-339: the recorded iterations are told to the new backend. *)
Definition replay_body (B : BestObject) (i : Z) (o : Backend)
    : M (ctrl * Backend) :=
  s ← get_self;
  next_x ← comprehension (λ key,
      column ← from_option Py.KeyError (bo_x_iters B !! key);
      from_option Py.IndexError (Py.index column i))
    (hyperparameters s);
  y ← from_option Py.IndexError (Py.index (bo_f_val B) i);
  let f_val :=
    if String.eqb (optimization_type s) "Maximize" then fneg y else y in
  log (EvTell next_x f_val);;
  let '(_, o') := tell next_x f_val o in
  mret (Continue, o').

(** Lines 342-375 *)
Definition restart_body (i : Z) (l : loop_locals) : M (ctrl * loop_locals) :=
  s ← get_self;
  print ("Current call:  " +:+ Py.str (current_call s));;
  start_time ← external time_time;
  let '(next_x, opt') := ask (opt l) in
  log (EvAsk next_x);;
  f_val ← _objective_function next_x;
  tell_and_record i start_time next_x f_val (with_opt opt' l).

Definition restart_optimize (a : RestartArgs) : M BestEvaluation :=
  let B := r_BestObject a in
  modify_self (reinitialize a);;
  s ← get_self;
  let o := choose_optimizer s true in
  let time_eval := bo_time B in
  let number_of_previous_calls := Py.len time_eval in
  modify_self
    (set_number_of_call (number_of_previous_calls + r_number_of_call a));;
  modify_self (set_current_call number_of_previous_calls);;
  modify_self (set_dict_model_runs (bo_dict_model_runs B));;
  modify_self (λ s, set_dict_model_runs
    (add_missing_metrics number_of_previous_calls (extra_metrics s)
       (dict_model_runs s)) s);;
  o ← for_each (replay_body B) (Py.range number_of_previous_calls) o;
  s ← get_self;
  l ← for_each restart_body
        (Py.range2 number_of_previous_calls (number_of_call s))
        {| opt := o; time_eval := time_eval; results := None |};
  from_option Py.UnboundLocalError (results l).

End Optimizer.

Arguments Ok {Ext A} a st.
Arguments Raise {Ext A} e st.

(** ** A concrete setting

    Floats are rationals, a training run returns the next value of a
    counter as its score, and the backend records what it is told and
    proposes the number of points seen so far. It serves to run the
    definitions above on the scenarios of the specification. *)

Module Scenario.

Fixpoint insert_sorted (q : Q) (l : list Q) : list Q :=
  match l with
  | [] => [q]
  | h :: t => if Qle_bool q h then q :: l else h :: insert_sorted q t
  end.

Definition sort (l : list Q) : list Q := foldr insert_sorted [] l.

(** [np.median] on rationals: the middle of the sorted list, or the mean
    of the two middle values; [0] stands for the [nan] of an empty list. *)
Definition Qmedian (l : list Q) : Q :=
  let s := sort l in
  let n := length s in
  if Nat.even n then
    match s !! (n / 2 - 1)%nat, s !! (n / 2)%nat with
    | Some a, Some b => Qred ((a + b) / 2)
    | _, _ => 0%Q
    end
  else default 0%Q (s !! (n / 2)%nat).

#[export] Instance ext : Externals := {|
  Value := Z;
  Dimension := Z * Z;
  Model := unit;
  Dataset := unit;
  Kernel := unit;
  Output := Q;
  Metric := string;
  MetricAttributes := unit;
  PyFloat := Q;
  World := Z;
  Backend := list (list Z * Q);
  TellResult := list Q;
  fneg := Qopp;
  fsub := Qminus;
  median := Qmedian;
  class_name := λ m, m;
  score := λ _ out, out;
  train_model := λ _ _ _ _ _ _ w, (Some (inject_Z w / 10)%Q, w + 1);
  time_time := λ w, (inject_Z w, w);
  ask := λ b, ([Py.len b], b);
  tell := λ x v b, ((b ++ [(x, v)]).*2, b ++ [(x, v)]);
  func_vals := λ r, r;
  load_metric := λ name _, name;
  load_dataset := λ _, tt;
|}.

#[export] Instance tool : OptimizerTool := {|
  choose_optimizer := λ _ _, [];
  early_condition := λ vals early_step n_random_starts,
    Py.len vals >=? early_step + n_random_starts;
|}.

Definition space : gmap string (Z * Z) := {[ "num_topics" := (5, 50) ]}.

(** The scenario of the specification: budget 3, one seed point [[10]]
    with score 0.42, Maximize. *)
Definition seeded_args : InitArgs :=
  {| a_model := tt; a_dataset := tt; a_metric := "Coherence";
     a_search_space := space; a_extra_metrics := [];
     a_number_of_call := 3; a_n_random_starts := 0;
     a_initial_point_generator := "lhs";
     a_optimization_type := "Maximize"; a_model_runs := 5;
     a_surrogate_model := "RF"; a_kernel := tt; a_acq_func := "LCB";
     a_random_state := None; a_x0 := [[10]]; a_y0 := [(42 # 100)%Q];
     a_save_models := false; a_save_step := 1; a_save_name := "result";
     a_save_path := "results/"; a_early_stop := false; a_early_step := 5;
     a_plot_best_seen := false; a_plot_model := false;
     a_plot_name := "B0_plot"; a_log_scale_plot := false |}.

Definition with_seeds (x0 : list (list Z)) (y0 : list Q) (n : Z)
    (a : InitArgs) : InitArgs :=
  {| a_model := a_model a; a_dataset := a_dataset a;
     a_metric := a_metric a; a_search_space := a_search_space a;
     a_extra_metrics := a_extra_metrics a; a_number_of_call := n;
     a_n_random_starts := a_n_random_starts a;
     a_initial_point_generator := a_initial_point_generator a;
     a_optimization_type := a_optimization_type a;
     a_model_runs := a_model_runs a;
     a_surrogate_model := a_surrogate_model a; a_kernel := a_kernel a;
     a_acq_func := a_acq_func a; a_random_state := a_random_state a;
     a_x0 := x0; a_y0 := y0; a_save_models := a_save_models a;
     a_save_step := a_save_step a; a_save_name := a_save_name a;
     a_save_path := a_save_path a; a_early_stop := a_early_stop a;
     a_early_step := a_early_step a;
     a_plot_best_seen := a_plot_best_seen a;
     a_plot_model := a_plot_model a; a_plot_name := a_plot_name a;
     a_log_scale_plot := a_log_scale_plot a |}.

Definition with_names (save_name plot_name save_path : string)
    (a : InitArgs) : InitArgs :=
  {| a_model := a_model a; a_dataset := a_dataset a;
     a_metric := a_metric a; a_search_space := a_search_space a;
     a_extra_metrics := a_extra_metrics a;
     a_number_of_call := a_number_of_call a;
     a_n_random_starts := a_n_random_starts a;
     a_initial_point_generator := a_initial_point_generator a;
     a_optimization_type := a_optimization_type a;
     a_model_runs := a_model_runs a;
     a_surrogate_model := a_surrogate_model a; a_kernel := a_kernel a;
     a_acq_func := a_acq_func a; a_random_state := a_random_state a;
     a_x0 := a_x0 a; a_y0 := a_y0 a; a_save_models := a_save_models a;
     a_save_step := a_save_step a; a_save_name := save_name;
     a_save_path := save_path; a_early_stop := a_early_stop a;
     a_early_step := a_early_step a;
     a_plot_best_seen := a_plot_best_seen a;
     a_plot_model := a_plot_model a; a_plot_name := plot_name;
     a_log_scale_plot := a_log_scale_plot a |}.

(** The seed point of the scenario without its score. *)
Definition unscored_args : InitArgs := with_seeds [[10]] [] 3 seeded_args.

(** Two seed points and a budget of one call. *)
Definition small_budget_args : InitArgs :=
  with_seeds [[10]; [20]] [(42 # 100)%Q; (40 # 100)%Q] 1 seeded_args.

(** No seed point, and file names given with their extensions. *)
Definition unseeded_args : InitArgs := with_seeds [] [] 3 seeded_args.

Definition extension_args : InitArgs :=
  with_names "result.json" "B0_plot.png" "results" unseeded_args.



(** The optimizer after construction, and the locals with which
    [optimize] enters its loop. *)
Definition fresh (a : InitArgs) : State := state_of (__init__ a 0).

Definition first_locals : loop_locals :=
  {| opt := []; time_eval := []; results := None |}.

(** A checkpoint with four completed iterations, and a restart for
    three more calls that overrides nothing. *)
Definition checkpoint : BestObject :=
  {| bo_search_space := space; bo_acq_func := "LCB";
     bo_surrogate_model := "RF"; bo_kernel := tt;
     bo_optimization_type := "Maximize"; bo_model_runs := 5;
     bo_save_models := false; bo_save_step := 2;
     bo_save_path := "results/"; bo_early_stop := false;
     bo_early_step := 5; bo_plot_model := false;
     bo_plot_best_seen := false; bo_plot_name := "B0_plot";
     bo_log_scale_plot := false; bo_metric_attributes := tt;
     bo_metric_name := "Coherence"; bo_dataset_path := "dataset";
     bo_time := [1; 1; 1; 1]%Q;
     bo_dict_model_runs := {[ "Coherence" := ∅ ]};
     bo_x_iters := {[ "num_topics" := [10; 20; 30; 40] ]};
     bo_f_val := [(1 # 2); (1 # 4); (3 # 4); (1 # 5)]%Q |}.

Definition restart_args : RestartArgs :=
  {| r_BestObject := checkpoint; r_number_of_call := 3; r_model := tt;
     r_metric := None; r_extra_metrics := []; r_acq_func := None;
     r_surrogate_model := None; r_kernel := None;
     r_optimization_type := None; r_model_runs := None;
     r_save_models := None; r_save_step := None; r_save_name := None;
     r_save_path := None; r_early_stop := None; r_early_step := None;
     r_plot_model := None; r_plot_best_seen := None;
     r_plot_name := None; r_log_scale_plot := None;
     r_search_space := None |}.


End Scenario.

(** * What is observed of a run

    The definitions below are used to state the properties: projections of
    the trace, the per-iteration history expected of a metric, and the
    dictionary a candidate stands for. *)

Section Observations.

Context `{Ext : Externals} {Tool : OptimizerTool}.

Definition tells (t : list event) : list (list Value * PyFloat) :=
  omap (λ e, match e with EvTell x v => Some (x, v) | _ => None end) t.

Definition asks (t : list event) : list (list Value) :=
  omap (λ e, match e with EvAsk x => Some x | _ => None end) t.

Definition harness_returns (t : list event)
    : list (list Value * list PyFloat * PyFloat) :=
  omap (λ e, match e with
             | EvHarness x runs r => Some (x, runs, r)
             | _ => None
             end) t.

Definition saves (t : list event) : list Z :=
  omap (λ e, match e with EvSave i _ _ => Some i | _ => None end) t.

(** The checkpoints written: the loop index, the path and the object
    that [results.save] receives. *)
Definition checkpoints (t : list event)
    : list (Z * string * BestEvaluation) :=
  omap (λ e, match e with EvSave i p r => Some (i, p, r) | _ => None end) t.

Definition early_checks (t : list event) : list Z :=
  omap (λ e, match e with EvEarlyCheck i => Some i | _ => None end) t.

Definition prints (t : list event) : list string :=
  omap (λ e, match e with EvPrint m => Some m | _ => None end) t.

Definition trains (t : list event) : list (gmap string Value) :=
  omap (λ e, match e with EvTrain p => Some p | _ => None end) t.

Definition stop_message : string :=
  "Stop because of early stopping condition".

Definition current_call_message (c : Z) : string :=
  "Current call:  " +:+ Py.str c.

(** The run was cut short by the early-stopping test. *)
Definition early_stopped (t : list event) : bool :=
  bool_decide (stop_message ∈ prints t).

(** The dictionary that the candidate [x] stands for under the ordering
    [names]. *)
Definition label (names : list string) (x : list Value)
    : gmap string Value :=
  foldl (λ p nv, <[nv.1 := nv.2]> p) ∅ (zip names x).

(** The sign convention: what the backend is told for a raw value [v]. *)
Definition signed (optimization_type : string) (v : PyFloat) : PyFloat :=
  if String.eqb optimization_type "Maximize" then fneg v else v.

Definition iteration_key (i : Z) : string := "iteration_" +:+ Py.str i.

(** The keys ["iteration_a"], .., ["iteration_(b-1)"]. *)
Definition iteration_keys (a b : Z) : gset string :=
  list_to_set (iteration_key <$> seqZ a (b - a)).

(** The history of metric [name] in [d] has exactly the keys [K], each
    with a list of [n] raw scores. *)
Definition history_ok (name : string) (K : gset string) (n : nat)
    (d : gmap string (gmap string run_entry)) : Prop :=
  ∃ inner, d !! name = Some inner ∧ dom inner = K ∧
    ∀ k v, inner !! k = Some v → ∃ rs, v = RunList rs ∧ length rs = n.

(** The events of a call of [_objective_function] before it returns. *)
Definition internal_for (p : gmap string Value) (e : event) : Prop :=
  match e with
  | EvTrain p' => p' = p
  | EvSaveModel _ | EvPlotRuns _ => True
  | _ => False
  end.

(** The events that a run from [st] to [st'] added, and whether a run
    returned (rather than raised). *)
Definition new_events (st st' : State) : list event :=
  drop (length (trace st)) (trace st').

Definition succeeded {A} (r : result A) : bool :=
  match r with Ok _ _ => true | Raise _ _ => false end.

Definition raised {A} (r : result A) : option Py.exn :=
  match r with Ok _ _ => None | Raise e _ => Some e end.

Definition returned {A} (r : result A) : option A :=
  match r with Ok a _ => Some a | Raise _ _ => None end.

(** The trace of [st'] extends that of [st] by events that satisfy [P]. *)
Definition grows (P : event → Prop) (st st' : State) : Prop :=
  ∃ new, trace st' = trace st ++ new ∧ Forall P new.

(** The raw primary scores of a candidate, lines 145-154 read as a
    function of the world: [self.model.train_model] is called [n] times in
    a row on the parameters [p], each call in the world that the previous
    one left, and [self.metric.score] is applied to each output.  [None]
    when a training fails. *)
Fixpoint raw_primary_scores (s : Optimizer) (p : gmap string Value)
    (n : nat) (w : World) : option (list PyFloat * World) :=
  match n with
  | O => Some ([], w)
  | S n' =>
      match train_model (model s) (dataset s) p topk topic_word_matrix
              topic_document_matrix w with
      | (Some output, w1) =>
          match raw_primary_scores s p n' w1 with
          | Some (rest, w2) => Some (score (metric s) output :: rest, w2)
          | None => None
          end
      | (None, _) => None
      end
  end.

(** [runs] are the raw primary scores of the candidate [x] under the
    attributes [s], obtained from the world [w] and leaving [w']. *)
Definition scored (s : Optimizer) (x : list Value) (runs : list PyFloat)
    (w w' : World) : Prop :=
  raw_primary_scores s (label (hyperparameters s) x)
    (Z.to_nat (model_runs s)) w = Some (runs, w').

(** The history [d] holds the list [runs] for the primary metric of [s]
    under the key of the current call. *)
Definition stored_runs (s : Optimizer) (runs : list PyFloat)
    (d : gmap string (gmap string run_entry)) : Prop :=
  ∃ inner, d !! class_name (metric s) = Some inner ∧
    inner !! iteration_key (current_call s) = Some (RunList runs).

(** What a return of [_objective_function x] with [r] leaves behind. *)
Definition harness_returned (x : list Value) (st : State) (r : PyFloat)
    (st' : State) : Prop :=
  let s := self st in
  ∃ runs hnew d,
    self st' = set_dict_model_runs d s ∧
    trace st' = trace st ++ hnew ++ [EvHarness x runs r] ∧
    Forall (internal_for (label (hyperparameters s) x)) hnew ∧
    (length runs = Z.to_nat (model_runs s) ∧
     scored s x runs (world st) (world st')) ∧
    r = signed (optimization_type s) (median runs) ∧
    (∀ K, history_ok (class_name (metric s)) K (Z.to_nat (model_runs s))
            (dict_model_runs s) →
          history_ok (class_name (metric s))
            (K ∪ {[iteration_key (current_call s)]})
            (Z.to_nat (model_runs s)) d) ∧
    (class_name (metric s) ∉ class_name <$> extra_metrics s →
     stored_runs s runs d).

Definition harness_raised (x : list Value) (st st' : State) : Prop :=
  ∃ d, self st' = set_dict_model_runs d (self st) ∧
       grows (internal_for (label (hyperparameters (self st)) x)) st st'.

(** The events of lines 230-257 at loop index [i], in a state with
    attributes [s]: [r] is the [BestEvaluation] built there and [stop]
    tells whether the early-stopping test fired. *)
Definition tail_events (s : Optimizer) (i : Z) (x : list Value)
    (f : PyFloat) (r : BestEvaluation) (stop : bool) : list event :=
  [EvTell x f] ++
  (if plot_best_seen s
   then [EvPlotBest (save_path s +:+ plot_name s +:+ "_best_seen")]
   else []) ++
  (if i `mod` save_step s =? 0
   then [EvSave i (save_path s +:+ save_name s +:+ ".json") r]
   else []) ++
  (if (Py.len (x0 s) <=? i) && early_stop s then [EvEarlyCheck i] else []) ++
  (if stop then [EvPrint stop_message] else []).

(** [s'] has the attributes of [s], except for the history and the call
    counter. *)
Definition same_config (s s' : Optimizer) : Prop :=
  ∃ d c, s' = set_dict_model_runs d (set_current_call c s).

(** The pair that [tell] receives for a return of the harness, and what
    the return must satisfy under the attributes [s]. *)
Definition told (h : list Value * list PyFloat * PyFloat)
    : list Value * PyFloat :=
  (h.1.1, h.2).

Definition harness_ok (s : Optimizer)
    (h : list Value * list PyFloat * PyFloat) : Prop :=
  length h.1.2 = Z.to_nat (model_runs s) ∧
  h.2 = signed (optimization_type s) (median h.1.2) ∧
  ∃ w w', scored s h.1.1 h.1.2 w w'.

(** The seed points with the values told for them. *)
Definition seed_pairs (s : Optimizer) : list (list Value * PyFloat) :=
  zip (x0 s) (signed (optimization_type s) <$> y0 s).

(** What is known of a loop that ran [e] iterations from index [a], from
    the state [st] to [st'].  [stop] tells whether it was left through
    the early-stopping test, in which case the last iteration did not
    advance [current_call]. *)
Definition loop_summary (a : Z) (st st' : State) (e : Z) (stop : bool)
    : Prop :=
  let s := self st in
  ∃ new,
    trace st' = trace st ++ new ∧
    same_config s (self st') ∧
    current_call (self st') =
      current_call s + e - (if stop then 1 else 0) ∧
    early_stopped new = stop ∧
    saves new = filter (λ i, i `mod` save_step s = 0) (seqZ a e) ∧
    prints new =
      (current_call_message <$> seqZ (current_call s) e) ++
      (if stop then [stop_message] else []) ∧
    length (tells new) = Z.to_nat e ∧
    (0 < e → save_step s ≠ 0).

(** What the checkpoint [c] of loop index [i] holds, in a loop that was
    entered at index [a] with the attributes [s] and [t0] timings, and
    that told the pairs [T]: it is written to
    [save_path + save_name + ".json"], and the object saved is made of the
    optimizer itself at that iteration (the attributes [s] with the
    history so far and the call counter of the iteration), of the result
    of the [tell] of that iteration, and of the timings, one more than
    before the iteration. *)
Definition checkpoint_ok (s : Optimizer) (a : Z) (t0 : nat)
    (T : list (list Value * PyFloat))
    (c : Z * string * BestEvaluation) : Prop :=
  let i := c.1.1 in
  let r := c.2 in
  c.1.2 = save_path s +:+ save_name s +:+ ".json" ∧
  same_config s (be_optimizer r) ∧
  current_call (be_optimizer r) = current_call s + (i - a) ∧
  length (be_times r) = (t0 + Z.to_nat (i - a) + 1)%nat ∧
  ∃ x f o, T !! Z.to_nat (i - a) = Some (x, f) ∧
           be_resultsBO r = (tell x f o).1.

(** [s'] is [s] up to the four attributes that [check_BO_parameters]
    assigns. *)
Definition renamed (s s' : Optimizer) : Prop :=
  ∃ pn sn sp mp,
    s' = set_model_path_models mp
           (set_save_path sp (set_save_name sn (set_plot_name pn s))).

(** The histories that the constructor creates: an empty one for the
    metric and for each extra metric. *)
Definition initial_histories (a : InitArgs)
    : gmap string (gmap string run_entry) :=
  foldl (λ d m, <[class_name m := ∅]> d)
    (<[class_name (a_metric a) := ∅]> ∅) (a_extra_metrics a).

(** Events of the constructor: messages and directories. *)
Definition construction_event (e : event) : Prop :=
  match e with
  | EvPrint _ | EvMkdir _ => True
  | _ => False
  end.

(** The attributes with which [restart_optimize] enters its loops. *)
Definition restart_start (a : RestartArgs) (s : Optimizer) : Optimizer :=
  let B := r_BestObject a in
  let k := Py.len (bo_time B) in
  set_dict_model_runs
    (add_missing_metrics k (r_extra_metrics a) (bo_dict_model_runs B))
    (set_current_call k
       (set_number_of_call (k + r_number_of_call a) (reinitialize a s))).

(** The pair that the replay of iteration [i] tells, read from the
    checkpoint under the ordering [names] and the direction [otype];
    [None] when a column or an index is missing. *)
Definition replay_pair (B : BestObject) (names : list string)
    (otype : string) (i : Z) : option (list Value * PyFloat) :=
  x ← mapM (λ key, bo_x_iters B !! key ≫= λ column, Py.index column i) names;
  y ← Py.index (bo_f_val B) i;
  Some (x, signed otype y).

Definition tell_event (p : list Value * PyFloat) : event := EvTell p.1 p.2.

(** How an iteration of a loop obtains the candidate [x] and the value
    [f] it tells: [pre] are the events of that part and [s1] the
    attributes after it. Either the backend is asked and the harness run,
    or a seed point is read with its score. *)
Definition asked (l : loop_locals) (st : State) (x : list Value)
    (f : PyFloat) (pre : list event) (s1 : Optimizer) : Prop :=
  let s := self st in
  x = (ask (opt l)).1 ∧
  ∃ runs hnew d,
    pre = EvAsk x :: hnew ++ [EvHarness x runs f] ∧
    s1 = set_dict_model_runs d s ∧
    Forall (internal_for (label (hyperparameters s) x)) hnew ∧
    (length runs = Z.to_nat (model_runs s) ∧
     ∃ w w', scored s x runs w w') ∧
    f = signed (optimization_type s) (median runs) ∧
    ∀ K, history_ok (class_name (metric s)) K (Z.to_nat (model_runs s))
           (dict_model_runs s) →
         history_ok (class_name (metric s))
           (K ∪ {[iteration_key (current_call s)]})
           (Z.to_nat (model_runs s)) d.

Definition seeded (i : Z) (st : State) (x : list Value) (f : PyFloat)
    (pre : list event) (s1 : Optimizer) : Prop :=
  let s := self st in
  pre = [] ∧ s1 = s ∧ Py.index (x0 s) i = Some x ∧ y0 s ≠ [] ∧
  ∃ y, Py.index (y0 s) i = Some y ∧ f = signed (optimization_type s) y.

(** The iteration ran to its end ([c] tells how the loop goes on). *)
Definition step_done (i : Z) (l l' : loop_locals) (st st' : State)
    (c : ctrl) (x : list Value) (f : PyFloat) (pre : list event)
    (s1 : Optimizer) : Prop :=
  ∃ r stop,
    trace st' =
      trace st ++
      EvPrint (current_call_message (current_call (self st))) ::
      pre ++ tail_events s1 i x f r stop ∧
    results l' = Some r ∧
    (be_optimizer r = s1 ∧ ∃ o, be_resultsBO r = (tell x f o).1) ∧
    be_times r = time_eval l' ∧
    length (time_eval l') = S (length (time_eval l)) ∧
    save_step s1 ≠ 0 ∧
    (stop = true → Py.len (x0 s1) ≤ i ∧ early_stop s1 = true) ∧
    c = (if stop then Break else Continue) ∧
    self st' =
      (if stop then s1 else set_current_call (current_call s1 + 1) s1).

(** The iteration stopped at [i % self.save_step] with a zero step. *)
Definition step_zero_division (st st' : State) (x : list Value)
    (f : PyFloat) (pre : list event) (s1 : Optimizer) : Prop :=
  save_step s1 = 0 ∧ self st' = s1 ∧
  ∃ tl,
    trace st' =
      trace st ++
      EvPrint (current_call_message (current_call (self st))) ::
      pre ++ EvTell x f :: tl ∧
    Forall (λ e, ∃ n, e = EvPlotBest n) tl.

(** The harness raised after the backend was asked. *)
Definition step_harness_raised (l : loop_locals) (st st' : State) : Prop :=
  let s := self st in
  let x := (ask (opt l)).1 in
  ∃ hnew d,
    self st' = set_dict_model_runs d s ∧
    trace st' =
      trace st ++
      EvPrint (current_call_message (current_call s)) :: EvAsk x :: hnew ∧
    Forall (internal_for (label (hyperparameters s) x)) hnew.



End Observations.

(** * Verification *)

Section Proofs.

Context `{Ext : Externals} {Tool : OptimizerTool}.

(** ** Running statements *)

Lemma bind_run {A B} (m : M A) (k : A → M B) st :
  (m ≫= k) st =
  match m st with Ok a st1 => k a st1 | Raise e st1 => Raise e st1 end.
Proof. reflexivity. Qed.

Ltac run :=
  repeat first
    [ rewrite bind_run
    | progress unfold external
    | progress cbn [get_self modify_self log print from_option
                    raise when mret M_ret self trace world] ].

Ltac solve_grows :=
  first
  [ exists []; split; [cbn [trace]; by rewrite app_nil_r|constructor]
  | eexists; split;
    [ cbn [trace]; rewrite <- ?app_assoc; reflexivity
    | repeat match goal with |- Forall _ _ => constructor end;
      cbn [internal_for construction_event]; eauto ] ].

Ltac list_assoc := cbn [app]; rewrite <- ?app_assoc; cbn [app].

(** A loop invariant for [for_each]: [I pre] holds when the indices [pre]
    have been completed, [R] is what is wanted of the outcome. *)
Lemma for_each_inv {L} (body : Z → L → M (ctrl * L))
    (I : list Z → L → State → Prop) (R : result L → Prop) idx :
  (∀ l st, I idx l st → R (Ok l st)) →
  (∀ pre i post l st, idx = pre ++ i :: post → I pre l st →
     match body i l st with
     | Ok (Continue, l') st' => I (pre ++ [i]) l' st'
     | Ok (Break, l') st' => R (Ok l' st')
     | Raise e st' => R (Raise e st')
     end) →
  ∀ l st, I [] l st → R (for_each body idx l st).
Proof.
  intros Hend Hstep.
  cut (∀ rest pre l st, idx = pre ++ rest → I pre l st →
         R (for_each body rest l st)).
  { intros H l st HI. by apply (H idx []). }
  induction rest as [|i rest IH]; intros pre l st Hidx HI.
  - rewrite app_nil_r in Hidx. subst pre. by apply Hend.
  - cbn [for_each]. rewrite bind_run.
    specialize (Hstep pre i rest l st Hidx HI).
    destruct (body i l st) as [[[] l'] st'|e st']; try done.
    apply (IH (pre ++ [i])); [|done].
    by rewrite <- app_assoc.
Qed.

Lemma seqZ_split a n pre i post :
  seqZ a n = pre ++ i :: post →
  i = a + Z.of_nat (length pre) ∧ Z.of_nat (length pre) < n.
Proof.
  intros H.
  assert (seqZ a n !! length pre = Some i) as Hl.
  { rewrite H. by rewrite list_lookup_middle. }
  by apply lookup_seqZ in Hl.
Qed.

(** The same for a range: [I i] holds before index [i] is run. *)
Lemma for_range_inv {L} (body : Z → L → M (ctrl * L))
    (I : Z → L → State → Prop) (R : result L → Prop) a n :
  (∀ l st, I (a + Z.max n 0) l st → R (Ok l st)) →
  (∀ i l st, a ≤ i < a + n → I i l st →
     match body i l st with
     | Ok (Continue, l') st' => I (i + 1) l' st'
     | Ok (Break, l') st' => R (Ok l' st')
     | Raise e st' => R (Raise e st')
     end) →
  ∀ l st, I a l st → R (for_each body (seqZ a n) l st).
Proof.
  intros Hend Hstep l st HI.
  apply (for_each_inv body (λ pre, I (a + Z.of_nat (length pre))) R).
  - intros l' st'. rewrite length_seqZ.
    replace (Z.of_nat (Z.to_nat n)) with (Z.max n 0) by lia. apply Hend.
  - intros pre i post l' st' Hsplit HI'.
    apply seqZ_split in Hsplit as [-> Hlt].
    specialize (Hstep (a + Z.of_nat (length pre)) l' st').
    destruct (body _ l' st') as [[[] l''] st''|e st'']; try (apply Hstep; [lia|done]).
    rewrite length_app. cbn [length].
    replace (a + Z.of_nat (length pre + 1)) with (a + Z.of_nat (length pre) + 1) by lia.
    apply Hstep; [lia|done].
  - cbn [length]. by replace (a + Z.of_nat 0) with a by lia.
Qed.

Lemma for_in_inv {A} (body : A → M unit) (I : State → Prop)
    (E : State → Prop) l :
  (∀ a st, a ∈ l → I st →
     match body a st with
     | Ok _ st' => I st'
     | Raise _ st' => E st'
     end) →
  ∀ st, I st →
  match for_in body l st with
  | Ok _ st' => I st'
  | Raise _ st' => E st'
  end.
Proof.
  induction l as [|a l IH]; intros Hstep st HI; [done|].
  cbn [for_in]. rewrite bind_run.
  pose proof (Hstep a st ltac:(left) HI) as Ha.
  destruct (body a st) as [[] st'|e st']; [|done].
  apply IH; [|done]. intros b st'' Hb. apply Hstep. by right.
Qed.

Lemma index_of_nat {A} (l : list A) (j : nat) :
  Py.index l (Z.of_nat j) = l !! j.
Proof.
  unfold Py.index. destruct (0 <=? Z.of_nat j) eqn:E; [|apply Z.leb_gt in E; lia].
  by rewrite Nat2Z.id.
Qed.

Lemma index_nonneg {A} (l : list A) (i : Z) :
  0 ≤ i → Py.index l i = l !! Z.to_nat i.
Proof.
  intros H. unfold Py.index.
  destruct (0 <=? i) eqn:E; [done|apply Z.leb_gt in E; lia].
Qed.

Lemma index_in_range {A} (l : list A) (i : Z) :
  0 ≤ i < Py.len l → is_Some (Py.index l i).
Proof.
  intros [H0 H1]. unfold Py.index, Py.len in *.
  destruct (0 <=? i) eqn:E; [|apply Z.leb_gt in E; lia].
  apply lookup_lt_is_Some. lia.
Qed.

Lemma index_out_of_range {A} (l : list A) (i : Z) :
  Py.len l ≤ i → Py.index l i = None.
Proof.
  intros H. unfold Py.index, Py.len in *.
  destruct (0 <=? i) eqn:E; [|apply Z.leb_gt in E; lia].
  apply lookup_ge_None. lia.
Qed.

(** ** The evaluation harness *)

Lemma grows_refl P st : grows P st st.
Proof. exists []. by rewrite app_nil_r. Qed.

Lemma grows_trans P st1 st2 st3 :
  grows P st1 st2 → grows P st2 st3 → grows P st1 st3.
Proof.
  intros (n1 & H1 & F1) (n2 & H2 & F2). exists (n1 ++ n2).
  split; [by rewrite H2, H1, app_assoc|by apply Forall_app].
Qed.

Lemma grows_log P e s w t :
  P e →
  grows P {| self := s; world := w; trace := t |}
          {| self := s; world := w; trace := t ++ [e] |}.
Proof. intros. exists [e]. split; [done|by constructor]. Qed.

Lemma dict_store_run name key v st :
  match dict_store name key v st with
  | Ok _ st' =>
      ∃ inner, dict_model_runs (self st) !! name = Some inner ∧
        st' = {| self := set_dict_model_runs
                           (<[name := <[key := v]> inner]>
                              (dict_model_runs (self st))) (self st);
                 world := world st; trace := trace st |}
  | Raise _ st' => st' = st
  end.
Proof.
  unfold dict_store. run.
  destruct (dict_model_runs (self st) !! name); run; eauto.
Qed.

Lemma label_parameters_run x st :
  match label_parameters x st with
  | Ok p st' => st' = st ∧ p = label (hyperparameters (self st)) x
  | Raise _ st' => st' = st
  end.
Proof.
  unfold label_parameters. run.
  set (names := hyperparameters (self st)).
  apply (for_range_inv _
    (λ i p st', st' = st ∧ 0 ≤ i ∧
       p = foldl (λ p nv, <[nv.1 := nv.2]> p) ∅
             (take (Z.to_nat i) (zip names x)))
    (λ r, match r with
          | Ok p st' => st' = st ∧ p = label names x
          | Raise _ st' => st' = st
          end)).
  - intros p st' (-> & _ & ->). split; [done|]. unfold label.
    rewrite take_ge; [done|]. rewrite length_zip. unfold Py.len. lia.
  - intros i p st' Hi (-> & H0 & ->). run.
    rewrite !index_nonneg by done.
    destruct (x !! Z.to_nat i) as [v|] eqn:Ev; run; [|done].
    destruct (names !! Z.to_nat i) as [nm|] eqn:En; run; [|done].
    split; [done|]. split; [lia|].
    replace (Z.to_nat (i + 1)) with (S (Z.to_nat i)) by lia.
    erewrite take_S_r; [|by apply lookup_zip_with_Some; eauto].
    by rewrite foldl_app.
  - done.
Qed.

Lemma raw_primary_scores_snoc s p k w0 runs w output w' :
  raw_primary_scores s p k w0 = Some (runs, w) →
  train_model (model s) (dataset s) p topk topic_word_matrix
    topic_document_matrix w = (Some output, w') →
  raw_primary_scores s p (S k) w0 =
    Some (runs ++ [score (metric s) output], w').
Proof.
  revert w0 runs. induction k as [|k IH]; intros w0 runs H Ht.
  - cbn in H. injection H as <- <-. cbn. by rewrite Ht.
  - cbn [raw_primary_scores] in H.
    destruct (train_model _ _ _ _ _ _ w0) as [[o1|] w1] eqn:E1; [|done].
    destruct (raw_primary_scores s p k w1) as [[rest w2]|] eqn:E2; [|done].
    injection H as <- <-.
    specialize (IH w1 rest E2 Ht).
    change (raw_primary_scores s p (S (S k)) w0) with
      (match train_model (model s) (dataset s) p topk topic_word_matrix
               topic_document_matrix w0 with
       | (Some output, w1) =>
           match raw_primary_scores s p (S k) w1 with
           | Some (rest, w2) => Some (score (metric s) output :: rest, w2)
           | None => None
           end
       | (None, _) => None
       end).
    by rewrite E1, IH.
Qed.

Lemma raw_primary_scores_length s p k w runs w' :
  raw_primary_scores s p k w = Some (runs, w') → length runs = k.
Proof.
  revert w runs. induction k as [|k IH]; intros w runs H.
  - cbn in H. by injection H as <- <-.
  - cbn [raw_primary_scores] in H.
    destruct (train_model _ _ _ _ _ _ w) as [[o1|] w1]; [|done].
    destruct (raw_primary_scores s p k w1) as [[rest w2]|] eqn:E2; [|done].
    injection H as <- <-. cbn. f_equal. by eapply IH.
Qed.

Lemma model_run_spec p i l st :
  match model_run p i l st with
  | Ok (c, l') st' =>
      c = Continue ∧ self st' = self st ∧ grows (internal_for p) st st' ∧
      length (different_model_runs l') = S (length (different_model_runs l)) ∧
      (∀ n, Forall (λ rs, length rs = n)
              (different_model_runs_extra_metrics l) →
            Forall (λ rs, length rs = S n)
              (different_model_runs_extra_metrics l')) ∧
      ∃ output,
        train_model (model (self st)) (dataset (self st)) p topk
          topic_word_matrix topic_document_matrix (world st) =
          (Some output, world st') ∧
        different_model_runs l' =
          different_model_runs l ++ [score (metric (self st)) output]
  | Raise _ st' => self st' = self st ∧ grows (internal_for p) st st'
  end.
Proof.
  unfold model_run. run.
  match goal with
  | |- context [train_model ?a ?b ?c ?d ?e ?f ?w] =>
      destruct (train_model a b c d e f w) as [[out|] w'] eqn:Etrain
  end; run.
  2:{ split; [done|]. solve_grows. }
  assert (∀ n, Forall (λ rs, length rs = n)
             (different_model_runs_extra_metrics l) →
           Forall (λ rs : list PyFloat, length rs = S n)
             (zip_with (λ runs extra_metric, runs ++ [score extra_metric out])
                (different_model_runs_extra_metrics l)
                (extra_metrics (self st)))) as Hextra.
  { intros n H. generalize (extra_metrics (self st)).
    induction H as [|rs rss Hrs _ IH]; intros [|m ms]; cbn; try constructor.
    - rewrite length_app. cbn. lia.
    - apply IH. }
  destruct (save_models (self st)); run;
    [destruct (model_path_models (self st)); run|].
  all: cbn [different_model_runs different_model_runs_extra_metrics world].
  all: rewrite ?length_app; cbn [length].
  all: split_and!; try solve_grows; try done; try lia.
  all: by exists out.
Qed.

Lemma runs_loop_spec p n l st :
  match for_each (model_run p) (Py.range n) l st with
  | Ok l' st' =>
      self st' = self st ∧ grows (internal_for p) st st' ∧
      length (different_model_runs l') =
        (length (different_model_runs l) + Z.to_nat n)%nat ∧
      (∀ k, Forall (λ rs, length rs = k)
              (different_model_runs_extra_metrics l) →
            Forall (λ rs, length rs = (k + Z.to_nat n)%nat)
              (different_model_runs_extra_metrics l')) ∧
      ∀ k w0,
        raw_primary_scores (self st) p k w0 =
          Some (different_model_runs l, world st) →
        raw_primary_scores (self st) p (k + Z.to_nat n) w0 =
          Some (different_model_runs l', world st')
  | Raise _ st' => self st' = self st ∧ grows (internal_for p) st st'
  end.
Proof.
  unfold Py.range, Py.range2. rewrite Z.sub_0_r.
  apply (for_range_inv _
    (λ i l' st', 0 ≤ i ∧ self st' = self st ∧ grows (internal_for p) st st' ∧
       length (different_model_runs l') =
         (length (different_model_runs l) + Z.to_nat i)%nat ∧
       (∀ k, Forall (λ rs, length rs = k)
               (different_model_runs_extra_metrics l) →
             Forall (λ rs, length rs = (k + Z.to_nat i)%nat)
               (different_model_runs_extra_metrics l')) ∧
       ∀ k w0,
         raw_primary_scores (self st) p k w0 =
           Some (different_model_runs l, world st) →
         raw_primary_scores (self st) p (k + Z.to_nat i) w0 =
           Some (different_model_runs l', world st'))
    (λ r, match r with
          | Ok l' st' => _
          | Raise _ st' => self st' = self st ∧ grows (internal_for p) st st'
          end)).
  - intros l' st' (_ & Hs & Hg & Hl & He & Hraw).
    split_and!; [done|done| | |].
    + rewrite Hl. lia.
    + intros k Hk. specialize (He k Hk).
      eapply Forall_impl; [exact He|]. cbn. intros; lia.
    + intros k w0 Hk. specialize (Hraw k w0 Hk).
      by replace (Z.to_nat (0 + Z.max n 0)) with (Z.to_nat n) in Hraw by lia.
  - intros i l' st' Hi (H0 & Hs & Hg & Hl & He & Hraw).
    pose proof (model_run_spec p i l' st') as Hrun.
    destruct (model_run p i l' st') as [[c l''] st''|e st''].
    + destruct Hrun as (-> & Hs' & Hg' & Hl' & He' & out & Htrain & Hout).
      split; [lia|]. split; [congruence|].
      split; [by eapply grows_trans|]. split; [lia|]. split.
      * intros k Hk. specialize (He' _ (He k Hk)).
        eapply Forall_impl; [exact He'|]. cbn. intros; lia.
      * intros k w0 Hk. specialize (Hraw k w0 Hk).
        replace (k + Z.to_nat (i + 1))%nat with (S (k + Z.to_nat i)) by lia.
        rewrite Hout. rewrite Hs in Htrain |- *.
        by eapply raw_primary_scores_snoc.
    + destruct Hrun as (Hs' & Hg'). split; [congruence|].
      by eapply grows_trans.
  - split_and!; [lia|done|apply grows_refl|lia| |].
    + intros k Hk. eapply Forall_impl; [exact Hk|]. cbn. intros; lia.
    + intros k w0 Hk. by rewrite Nat.add_0_r.
Qed.

Lemma history_store_primary name K n d inner key rs :
  history_ok name K n d → d !! name = Some inner → length rs = n →
  history_ok name (K ∪ {[key]}) n
    (<[name := <[key := RunList rs]> inner]> d).
Proof.
  intros (inner' & Hd & Hdom & Hval) Hin Hrs.
  assert (inner' = inner) as -> by congruence.
  exists (<[key := RunList rs]> inner). split; [by rewrite lookup_insert_eq|].
  split; [rewrite dom_insert_L; set_solver|].
  intros k v. rewrite lookup_insert. case_decide; [|by apply Hval].
  intros [= <-]. eauto.
Qed.

Lemma history_store_again name K n d nm inner key rs :
  history_ok name K n d → key ∈ K → d !! nm = Some inner → length rs = n →
  history_ok name K n (<[nm := <[key := RunList rs]> inner]> d).
Proof.
  intros Hok Hkey Hin Hrs. destruct (decide (nm = name)) as [->|Hne].
  - replace K with (K ∪ {[key]}) by set_solver.
    by apply history_store_primary.
  - destruct Hok as (inner' & Hd & Hdom & Hval). exists inner'.
    by rewrite lookup_insert_ne.
Qed.

Lemma set_dict_model_runs_id s :
  set_dict_model_runs (dict_model_runs s) s = s.
Proof. by destruct s. Qed.

Lemma harness_spec x st :
  match _objective_function x st with
  | Ok r st' => harness_returned x st r st'
  | Raise _ st' => harness_raised x st st'
  end.
Proof.
  unfold _objective_function. run.
  pose proof (label_parameters_run x st) as Hlab.
  destruct (label_parameters x st) as [p st1|e st1].
  2:{ subst st1. exists (dict_model_runs (self st)).
      split; [by rewrite set_dict_model_runs_id|apply grows_refl]. }
  destruct Hlab as [-> ->]. run.
  set (p := label (hyperparameters (self st)) x).
  set (s := self st).
  match goal with
  | |- context [for_each (model_run p) ?idx ?l0 st] =>
      pose proof (runs_loop_spec p (model_runs s) l0 st) as Hloop;
      destruct (for_each (model_run p) idx l0 st) as [l st1|e st1]
  end.
  2:{ destruct Hloop as [Hs Hg]. exists (dict_model_runs s).
      split; [by rewrite Hs, set_dict_model_runs_id|done]. }
  destruct Hloop as (Hs & Hg & Hlen & Hextra & Hraw).
  cbn [different_model_runs different_model_runs_extra_metrics length] in *.
  specialize (Hextra 0%nat). cbn in Hextra.
  specialize (Hraw 0%nat (world st) eq_refl). cbn [Nat.add] in Hraw.
  assert (Forall (λ rs, length rs = Z.to_nat (model_runs s))
            (different_model_runs_extra_metrics l)) as Hex.
  { apply Hextra. apply Forall_fmap. by apply Forall_true. }
  clear Hextra. run.
  set (name := class_name (metric s)) in *.
  set (key := "iteration_" +:+ Py.str (current_call s)) in *.
  set (n := Z.to_nat (model_runs s)) in *.
  set (hist := λ d, ∀ K, history_ok name K n (dict_model_runs s) →
                         history_ok name (K ∪ {[key]}) n d).
  set (kept := λ d, name ∉ class_name <$> extra_metrics s →
                    stored_runs s (different_model_runs l) d).
  pose proof (dict_store_run name key (RunList (different_model_runs l)) st1)
    as Hst.
  destruct (dict_store name key _ st1) as [[] st2|e st2].
  2:{ subst st2. exists (dict_model_runs s).
      split; [by rewrite Hs, set_dict_model_runs_id|done]. }
  destruct Hst as (inner & Hinner & ->). rewrite Hs in *.
  fold s in Hinner |- *. run.
  match goal with
  | |- context [for_in ?body ?lst ?st2] =>
      pose proof (for_in_inv body
        (λ st', trace st' = trace st1 ∧ world st' = world st1 ∧
                ∃ d, self st' = set_dict_model_runs d s ∧ hist d ∧ kept d)
        (λ st', trace st' = trace st1 ∧
                ∃ d, self st' = set_dict_model_runs d s) lst) as Hfor;
      specialize (λ H, Hfor H st2)
  end.
  lapply Hfor; clear Hfor.
  2:{ intros [m rs] st' Hin (Ht & Hw & d & Hd & Hh & Hk).
      pose proof (dict_store_run (class_name m) key (RunList rs) st') as Hst.
      destruct (dict_store (class_name m) key _ st') as [[] st''|e st''].
      - destruct Hst as (inner' & Hinner' & ->). cbn [self trace world].
        split; [done|]. split; [done|].
        eexists. split; [by rewrite Hd|].
        cbn [dict_model_runs set_dict_model_runs].
        rewrite Hd in Hinner'. cbn [dict_model_runs] in Hinner'.
        split.
        + intros K HK.
          apply history_store_again; [by apply Hh|set_solver|done|].
          apply elem_of_zip_r in Hin.
          by eapply (proj1 (Forall_forall _ _) Hex).
        + intros Hne. destruct (Hk Hne) as (inner0 & Hd0 & Hi0).
          exists inner0. split; [|done].
          rewrite lookup_insert_ne; [done|].
          intros Heq. apply Hne. apply elem_of_zip_l in Hin.
          apply list_elem_of_fmap. exists m. by split.
      - subst st''. eauto. }
  intros Hfor. lapply Hfor; clear Hfor.
  2:{ cbn [self trace world]. split; [done|]. split; [done|].
      eexists. split; [done|]. split.
      - intros K HK. by apply history_store_primary.
      - intros _. exists (<[key := RunList (different_model_runs l)]> inner).
        split; [by rewrite lookup_insert_eq|].
        unfold iteration_key. fold key. by rewrite lookup_insert_eq. }
  intros Hfor.
  match type of Hfor with
  | match ?m with _ => _ end => destruct m as [[] st3|e st3]
  end.
  2:{ destruct Hfor as (Ht & d & Hd). exists d. split; [done|].
      destruct Hg as (new & Hnew & HF). exists new. by rewrite Ht. }
  destruct Hfor as (Ht & Hw & d & Hd & Hh & Hk). run.
  assert (scored s x (different_model_runs l) (world st) (world st3))
    as Hscored by (unfold scored; by rewrite Hw).
  set (result := if (optimization_type s =? "Maximize")%string
                 then fneg (median (different_model_runs l))
                 else median (different_model_runs l)).
  destruct Hg as (new & Hnew & HF).
  assert (∀ (ms : list Metric) nm st4,
            match for_in (λ _ : Metric, log (EvPlotRuns nm)) ms st4 with
            | Ok _ st' =>
                (self st' = self st4 ∧ world st' = world st4) ∧
                grows (internal_for p) st4 st'
            | Raise _ _ => False
            end) as Hplots.
  { intros ms nm. induction ms as [|m ms IH]; intros st4.
    - cbn. split; [done|apply grows_refl].
    - cbn [for_in]. run. specialize (IH
        {| self := self st4; world := world st4;
           trace := trace st4 ++ [EvPlotRuns nm] |}).
      destruct (for_in _ ms _) as [[] st5|]; [|done].
      destruct IH as [IH1 IH2]. split; [done|].
      eapply grows_trans; [|exact IH2]. solve_grows. }
  destruct (plot_model s); run.
  - match goal with
    | |- context [for_in (λ _, log (EvPlotRuns ?nm)) ?ms ?st4] =>
        specialize (Hplots ms nm st4);
        destruct (for_in (λ _ : Metric, log (EvPlotRuns nm)) ms st4)
          as [[] st5|]; [|done]
    end.
    destruct Hplots as [[Hs5 Hw5] (new5 & Hn5 & HF5)]. run.
    cbn [self trace world] in *.
    eexists (different_model_runs l), (new ++ [_] ++ new5), d.
    split; [by rewrite Hs5|]. split.
    { rewrite Hn5, Ht, Hnew. rewrite <- !app_assoc. reflexivity. }
    split. { apply Forall_app. split; [done|]. by constructor. }
    split. { split; [by rewrite Hlen|]. by rewrite Hw5. }
    done.
  - exists (different_model_runs l), new, d.
    split; [done|]. split. { by rewrite Ht, Hnew, <- app_assoc. }
    split; [done|]. split. { split; [by rewrite Hlen|done]. }
    done.
Qed.

(** ** One iteration of the loops *)

Lemma tell_and_record_spec i start x f l st :
  match tell_and_record i start x f l st with
  | Ok (c, l') st' =>
      save_step (self st) ≠ 0 ∧
      ∃ r stop,
        results l' = Some r ∧
        (be_optimizer r = self st ∧ be_resultsBO r = (tell x f (opt l)).1) ∧
        be_times r = time_eval l' ∧
        length (time_eval l') = S (length (time_eval l)) ∧
        trace st' = trace st ++ tail_events (self st) i x f r stop ∧
        (stop = true →
           Py.len (x0 (self st)) ≤ i ∧ early_stop (self st) = true) ∧
        c = (if stop then Break else Continue) ∧
        self st' =
          (if stop then self st
           else set_current_call (current_call (self st) + 1) (self st))
  | Raise e st' =>
      e = Py.ZeroDivisionError ∧ save_step (self st) = 0 ∧
      self st' = self st ∧
      ∃ tl, trace st' = trace st ++ EvTell x f :: tl ∧
            Forall (λ e, ∃ n, e = EvPlotBest n) tl
  end.
Proof.
  unfold tell_and_record, tail_events, stop_message, Py.mod_. run.
  destruct (tell x f (opt l)) as [res o']. run.
  destruct (time_time (world st)) as [end_time w']. run.
  destruct (save_step (self st) =? 0) eqn:Es; run.
  { apply Z.eqb_eq in Es.
    destruct (plot_best_seen (self st)); run;
      (split_and!; [done|done|done|]);
      (eexists; split;
       [cbn [trace]; rewrite <- ?app_assoc; reflexivity|];
       repeat constructor; eauto). }
  apply Z.eqb_neq in Es.
  destruct (plot_best_seen (self st)); run;
    (destruct (_ `mod` _ =? 0); run);
    (destruct (Py.len (x0 (self st)) <=? i) eqn:Ei;
       [apply Z.leb_le in Ei|]; cbn [andb]; run);
    try (destruct (early_stop (self st)) eqn:Ee; run);
    try (destruct (early_condition _ _ _) eqn:Ec; run).
  all: split; [done|].
  all: match goal with
       | Ec : early_condition _ _ _ = true |- _ => eexists _, true
       | _ => eexists _, false
       end.
  all: cbn [results time_eval be_optimizer be_times be_resultsBO fst].
  all: rewrite length_app; cbn [length app].
  all: split_and!;
         [reflexivity|reflexivity|reflexivity|reflexivity|lia|
         |auto; discriminate|reflexivity|reflexivity].
  all: rewrite <- ?app_assoc; reflexivity.
Qed.

Lemma evaluate_then_tell i start l st0 st1 x o' :
  ask (opt l) = (x, o') →
  self st1 = self st0 →
  trace st1 =
    trace st0 ++
    [EvPrint (current_call_message (current_call (self st0))); EvAsk x] →
  match
    match _objective_function x st1 with
    | Ok f st2 => tell_and_record i start x f (with_opt o' l) st2
    | Raise e st2 => Raise e st2
    end
  with
  | Ok (c, l') st' =>
      ∃ x f pre s1, asked l st0 x f pre s1 ∧
                    step_done i l l' st0 st' c x f pre s1
  | Raise e st' =>
      step_harness_raised l st0 st' ∨
      ∃ x f pre s1, e = Py.ZeroDivisionError ∧ asked l st0 x f pre s1 ∧
                    step_zero_division st0 st' x f pre s1
  end.
Proof.
  intros Eask Hself Htrace.
  unfold asked, step_done, step_harness_raised, step_zero_division.
  rewrite Eask. cbn [fst].
  pose proof (harness_spec x st1) as Hh.
  destruct (_objective_function x st1) as [f st2|e st2].
  2:{ left. destruct Hh as (d & Hd & hnew & Hnew & HF).
      rewrite Hself in *.
      exists hnew, d. split; [done|]. split; [|done].
      rewrite Hnew, Htrace. by list_assoc. }
  destruct Hh as (runs & hnew & d & Hd & Hnew & HF & [Hlen Hsc] & Hf & Hhist
                  & _).
  rewrite Hself in *.
  assert (∃ w w', scored (self st0) x runs w w') as Hscored by eauto.
  clear Hsc.
  pose proof (tell_and_record_spec i start x f (with_opt o' l) st2) as Ht.
  destruct (tell_and_record i start x f (with_opt o' l) st2)
    as [[c l'] st3|e st3].
  - destruct Ht as (Hstep & r & stop & Hr & [Hbo Hres] & Hbt & Htl & Htr
                    & Hstop & Hc & Hs3).
    assert (∃ o, be_resultsBO r = (tell x f o).1) as Hres' by eauto.
    clear Hres.
    exists x, f, (EvAsk x :: hnew ++ [EvHarness x runs f]),
      (set_dict_model_runs d (self st0)).
    split. { split; [done|]. exists runs, hnew, d. by split_and!. }
    exists r, stop. rewrite Hd in *.
    split. { rewrite Htr, Hnew, Htrace. by list_assoc. }
    repeat (split; [done|]). done.
  - right. destruct Ht as (-> & Hstep & Hs3 & tl & Htl & HF').
    exists x, f, (EvAsk x :: hnew ++ [EvHarness x runs f]),
      (set_dict_model_runs d (self st0)).
    split; [done|]. split.
    { split; [done|]. exists runs, hnew, d. by split_and!. }
    rewrite Hd in *. split; [done|]. split; [done|].
    exists tl. split; [|done].
    rewrite Htl, Hnew, Htrace. by list_assoc.
Qed.

Lemma index_empty {A} (l : list A) (i : Z) :
  Py.len l = 0 → Py.index l i = None.
Proof.
  destruct l; [|by unfold Py.len; cbn; lia]. intros _. unfold Py.index.
  destruct (0 <=? i); [done|]. by destruct (_ <=? i).
Qed.

Lemma restart_body_spec i l st :
  match restart_body i l st with
  | Ok (c, l') st' =>
      ∃ x f pre s1, asked l st x f pre s1 ∧
                    step_done i l l' st st' c x f pre s1
  | Raise e st' =>
      step_harness_raised l st st' ∨
      ∃ x f pre s1, e = Py.ZeroDivisionError ∧ asked l st x f pre s1 ∧
                    step_zero_division st st' x f pre s1
  end.
Proof.
  unfold restart_body. run.
  destruct (time_time (world st)) as [start w']. run.
  destruct (ask (opt l)) as [x o'] eqn:Eask. run.
  apply (evaluate_then_tell i start l st _ x o'); [done|done|].
  cbn [trace]. by rewrite <- app_assoc.
Qed.

Lemma optimize_body_spec i l st :
  0 ≤ i →
  match optimize_body i l st with
  | Ok (c, l') st' =>
      ∃ x f pre s1,
        (i < Py.len (x0 (self st)) ∧ seeded i st x f pre s1 ∨
         Py.len (x0 (self st)) ≤ i ∧ asked l st x f pre s1) ∧
        step_done i l l' st st' c x f pre s1
  | Raise e st' =>
      (i < Py.len (x0 (self st)) ∧ e = Py.IndexError ∧
       Py.index (y0 (self st)) i = None ∧ self st' = self st ∧
       trace st' =
         trace st ++
         [EvPrint (current_call_message (current_call (self st)))]) ∨
      (Py.len (x0 (self st)) ≤ i ∧ step_harness_raised l st st') ∨
      ∃ x f pre s1,
        e = Py.ZeroDivisionError ∧
        (i < Py.len (x0 (self st)) ∧ seeded i st x f pre s1 ∨
         Py.len (x0 (self st)) ≤ i ∧ asked l st x f pre s1) ∧
        step_zero_division st st' x f pre s1
  end.
Proof.
  intros Hi. unfold optimize_body. run.
  destruct (time_time (world st)) as [start w']. run.
  destruct (i <? Py.len (x0 (self st))) eqn:Ei.
  - apply Z.ltb_lt in Ei. run.
    destruct (index_in_range (x0 (self st)) i ltac:(lia)) as [x Hx].
    rewrite Hx. run.
    destruct (Py.len (y0 (self st)) =? 0) eqn:Ey.
    { apply Z.eqb_eq in Ey. run.
      pose proof (index_empty (y0 (self st)) i Ey) as Hy0.
      rewrite Hy0. run. by left. }
    apply Z.eqb_neq in Ey. run.
    destruct (Py.index (y0 (self st)) i) as [y|] eqn:Hy; run.
    2:{ by left. }
    match goal with
    | |- context [tell_and_record i start x ?f l ?st1] =>
        pose proof (tell_and_record_spec i start x f l st1) as Ht;
        destruct (tell_and_record i start x f l st1) as [[c l'] st3|e st3]
    end; cbn [self trace] in Ht.
    + destruct Ht as (Hstep & r & stop & Ht).
      eexists x, _, [], (self st). split.
      { left. split; [done|]. split_and!; try done.
        - intros Hnil. by rewrite Hnil in Ey.
        - by exists y. }
      exists r, stop. destruct Ht as (? & [? Hres] & ? & ? & Htr & ? & ? & ?).
      assert (∃ o, be_resultsBO r = (tell x
                (if (optimization_type (self st) =? "Maximize")%string
                 then fneg y else y) o).1) as Hres' by eauto.
      clear Hres.
      split. { rewrite Htr. by list_assoc. }
      repeat (split; [done|]). done.
    + right. right. destruct Ht as (-> & Hstep & Hs3 & tl & Htl & HF).
      eexists x, _, [], (self st). split; [done|]. split.
      { left. split; [done|]. split_and!; try done.
        - intros Hnil. by rewrite Hnil in Ey.
        - by exists y. }
      split; [done|]. split; [done|]. exists tl. split; [|done].
      rewrite Htl. by list_assoc.
  - apply Z.ltb_ge in Ei. run.
    destruct (ask (opt l)) as [x o'] eqn:Eask. run.
    match goal with
    | |- context [_objective_function x ?st1] =>
        pose proof (evaluate_then_tell i start l st st1 x o' Eask
                      eq_refl) as H;
        lapply H; [clear H; intros H|cbn [trace]; by rewrite <- app_assoc];
        destruct (_objective_function x st1) as [f st2|e st2]
    end; run.
    + destruct (tell_and_record _ _ _ _ _ _) as [[c l'] st3|e st3].
      * destruct H as (x' & f' & pre & s1 & Ha & Hd).
        exists x', f', pre, s1. split; [by right|done].
      * destruct H as [H|(x' & f' & pre & s1 & He & Ha & Hd)];
          [right; by left|].
        right. right. exists x', f', pre, s1. split; [done|].
        split; [by right|done].
    + destruct H as [H|(x' & f' & pre & s1 & He & Ha & Hd)];
        [right; by left|].
      right. right. exists x', f', pre, s1. split; [done|].
      split; [by right|done].
Qed.

(** ** Projections of the events of an iteration *)

Lemma omap_internal {A} (g : event → option A) p h :
  (∀ e, internal_for p e → g e = None) →
  Forall (internal_for p) h → omap g h = [].
Proof.
  intros Hg. induction 1 as [|e h He _ IH]; [done|].
  cbn [omap list_omap]. by rewrite (Hg e He).
Qed.

Lemma internal_tells p h : Forall (internal_for p) h → tells h = [].
Proof. apply omap_internal. by intros []. Qed.

Lemma internal_asks p h : Forall (internal_for p) h → asks h = [].
Proof. apply omap_internal. by intros []. Qed.

Lemma internal_harness_returns p h :
  Forall (internal_for p) h → harness_returns h = [].
Proof. apply omap_internal. by intros []. Qed.

Lemma internal_saves p h : Forall (internal_for p) h → saves h = [].
Proof. apply omap_internal. by intros []. Qed.

Lemma internal_early_checks p h :
  Forall (internal_for p) h → early_checks h = [].
Proof. apply omap_internal. by intros []. Qed.

Lemma internal_prints p h : Forall (internal_for p) h → prints h = [].
Proof. apply omap_internal. by intros []. Qed.

Lemma internal_trains p h :
  Forall (internal_for p) h → Forall (λ q, q = p) (trains h).
Proof.
  induction 1 as [|e h He _ IH]; [constructor|].
  destruct e; cbn in *; try done. by constructor.
Qed.

Lemma tail_tells s i x f r stop : tells (tail_events s i x f r stop) = [(x, f)].
Proof.
  unfold tail_events.
  by destruct (plot_best_seen s), (_ =? 0), (_ && _), stop.
Qed.

Lemma tail_asks s i x f r stop : asks (tail_events s i x f r stop) = [].
Proof.
  unfold tail_events.
  by destruct (plot_best_seen s), (_ =? 0), (_ && _), stop.
Qed.

Lemma tail_harness_returns s i x f r stop :
  harness_returns (tail_events s i x f r stop) = [].
Proof.
  unfold tail_events.
  by destruct (plot_best_seen s), (_ =? 0), (_ && _), stop.
Qed.

Lemma tail_trains s i x f r stop : trains (tail_events s i x f r stop) = [].
Proof.
  unfold tail_events.
  by destruct (plot_best_seen s), (_ =? 0), (_ && _), stop.
Qed.

Lemma tail_saves s i x f r stop :
  saves (tail_events s i x f r stop) =
  if i `mod` save_step s =? 0 then [i] else [].
Proof.
  unfold tail_events.
  by destruct (plot_best_seen s), (_ =? 0), (_ && _), stop.
Qed.

Lemma tail_early_checks s i x f r stop :
  early_checks (tail_events s i x f r stop) =
  if (Py.len (x0 s) <=? i) && early_stop s then [i] else [].
Proof.
  unfold tail_events.
  by destruct (plot_best_seen s), (_ =? 0), (_ && _), stop.
Qed.

Lemma tail_prints s i x f r stop :
  prints (tail_events s i x f r stop) =
  if stop then [stop_message] else [].
Proof.
  unfold tail_events.
  by destruct (plot_best_seen s), (_ =? 0), (_ && _), stop.
Qed.

Lemma plots_silent {A} (g : event → option A) tl :
  (∀ n, g (EvPlotBest n) = None) →
  Forall (λ e, ∃ n, e = EvPlotBest n) tl → omap g tl = [].
Proof.
  intros Hg. induction 1 as [|e h [n ->] _ IH]; [done|].
  cbn [omap list_omap]. by rewrite Hg.
Qed.

Lemma plots_tells tl :
  Forall (λ e, ∃ n, e = EvPlotBest n) tl → tells tl = [].
Proof. by apply plots_silent. Qed.

Lemma plots_harness_returns tl :
  Forall (λ e, ∃ n, e = EvPlotBest n) tl → harness_returns tl = [].
Proof. by apply plots_silent. Qed.

Lemma plots_saves tl :
  Forall (λ e, ∃ n, e = EvPlotBest n) tl → saves tl = [].
Proof. by apply plots_silent. Qed.

Lemma plots_prints tl :
  Forall (λ e, ∃ n, e = EvPlotBest n) tl → prints tl = [].
Proof. by apply plots_silent. Qed.

Lemma plots_trains tl :
  Forall (λ e, ∃ n, e = EvPlotBest n) tl → trains tl = [].
Proof. by apply plots_silent. Qed.

Lemma current_call_message_not_stop c : current_call_message c ≠ stop_message.
Proof. unfold current_call_message, stop_message. cbn. discriminate. Qed.

(** ** Early stopping and the seed points *)

(** C10: in [optimize], an iteration [i < len(x0)] never consults the
    early-stopping test and never leaves the loop through it: whatever the
    [early_stop] flag, the locals and the history held by the backend, the
    body records no call of [early_condition], prints no stop message and,
    when it completes, continues with the next iteration. *)
Theorem early_stop_not_consulted_on_seed_points i l st :
  0 ≤ i < Py.len (x0 (self st)) →
  ∃ new,
    trace (state_of (optimize_body i l st)) = trace st ++ new ∧
    early_checks new = [] ∧ early_stopped new = false ∧
    ∀ c l' st', optimize_body i l st = Ok (c, l') st' → c = Continue.
Proof.
  intros [Hi0 Hi]. pose proof (optimize_body_spec i l st Hi0) as H.
  assert ((Py.len (x0 (self st)) <=? i) = false) as Hle by (apply Z.leb_gt; lia).
  assert (∀ c, bool_decide (stop_message ∈ [current_call_message c]) = false)
    as Hmsg.
  { intros c. apply bool_decide_eq_false. rewrite list_elem_of_singleton.
    intros Heq. by apply (current_call_message_not_stop c). }
  destruct (optimize_body i l st) as [[c l'] st'|e st']; cbn [state_of].
  - destruct H as (x & f & pre & s1 & [[_ Hseed]|[Hge _]] & Hdone); [|lia].
    destruct Hseed as (-> & -> & _).
    destruct Hdone as (r & stop & Htr & _ & _ & _ & _ & _ & Hstop & Hc & _).
    destruct stop; [destruct (Hstop eq_refl); lia|].
    eexists. split; [exact Htr|]. cbn [app].
    unfold early_stopped, early_checks, prints.
    change (omap ?g (?e :: ?t)) with (omap g t) at 1.
    fold (early_checks (tail_events (self st) i x f r false)).
    rewrite tail_early_checks, Hle. split; [done|]. split.
    + cbn [omap list_omap].
      fold (prints (tail_events (self st) i x f r false)).
      rewrite tail_prints. apply Hmsg.
    + by intros ? ? ? [= -> _ _].
  - destruct H as [(_ & _ & _ & _ & Htr)|[[Hge _]|H]]; [|lia|].
    + eexists. split; [exact Htr|]. split; [done|]. split; [apply Hmsg|done].
    + destruct H as (x & f & pre & s1 & _ & [[_ Hseed]|[Hge _]] & Hz); [|lia].
      destruct Hseed as (-> & -> & _).
      destruct Hz as (_ & _ & tl & Htr & HF).
      eexists. split; [exact Htr|]. cbn [app].
      assert (early_checks tl = []) as Hec by (by eapply plots_silent).
      assert (prints tl = []) as Hpr by (by eapply plots_silent).
      unfold early_stopped, early_checks, prints in *.
      cbn [omap list_omap]. rewrite Hec, Hpr. split; [done|].
      split; [apply Hmsg|done].
Qed.

(** ** What the backend is told *)

Lemma tells_app t1 t2 : tells (t1 ++ t2) = tells t1 ++ tells t2.
Proof. apply omap_app. Qed.
Lemma asks_app t1 t2 : asks (t1 ++ t2) = asks t1 ++ asks t2.
Proof. apply omap_app. Qed.
Lemma harness_returns_app t1 t2 :
  harness_returns (t1 ++ t2) = harness_returns t1 ++ harness_returns t2.
Proof. apply omap_app. Qed.
Lemma saves_app t1 t2 : saves (t1 ++ t2) = saves t1 ++ saves t2.
Proof. apply omap_app. Qed.
Lemma early_checks_app t1 t2 :
  early_checks (t1 ++ t2) = early_checks t1 ++ early_checks t2.
Proof. apply omap_app. Qed.
Lemma prints_app t1 t2 : prints (t1 ++ t2) = prints t1 ++ prints t2.
Proof. apply omap_app. Qed.
Lemma trains_app t1 t2 : trains (t1 ++ t2) = trains t1 ++ trains t2.
Proof. apply omap_app. Qed.

Lemma same_config_refl s : same_config s s.
Proof. exists (dict_model_runs s), (current_call s). by destruct s. Qed.

Lemma same_config_dict s s' d :
  same_config s s' → same_config s (set_dict_model_runs d s').
Proof. intros (d' & c & ->). by exists d, c. Qed.

Lemma same_config_call s s' c :
  same_config s s' → same_config s (set_current_call c s').
Proof. intros (d & c' & ->). by exists d, c. Qed.

Lemma asked_obs l st x f pre s1 :
  asked l st x f pre s1 →
  ∃ runs,
    tells pre = [] ∧ harness_returns pre = [(x, runs, f)] ∧
    harness_ok (self st) (x, runs, f) ∧ same_config (self st) s1 ∧
    asks pre = [x] ∧ saves pre = [] ∧ early_checks pre = [] ∧
    prints pre = [] ∧
    Forall (λ q, q = label (hyperparameters (self st)) x) (trains pre).
Proof.
  intros (_ & runs & hnew & d & -> & -> & HF & [Hlen Hsc] & Hf & _).
  exists runs.
  change (EvAsk x :: hnew ++ [EvHarness x runs f])
    with ([EvAsk x] ++ hnew ++ [EvHarness x runs f]).
  rewrite !tells_app, !harness_returns_app, !asks_app, !saves_app,
    !early_checks_app, !prints_app, !trains_app.
  rewrite (internal_tells _ _ HF), (internal_harness_returns _ _ HF),
    (internal_asks _ _ HF), (internal_saves _ _ HF),
    (internal_early_checks _ _ HF), (internal_prints _ _ HF).
  split_and!; try done.
  - apply same_config_dict, same_config_refl.
  - cbn. rewrite app_nil_r. by apply internal_trains.
Qed.

Lemma same_config_fields s s' :
  same_config s s' →
  x0 s' = x0 s ∧ y0 s' = y0 s ∧ optimization_type s' = optimization_type s ∧
  model_runs s' = model_runs s ∧ hyperparameters s' = hyperparameters s ∧
  save_step s' = save_step s ∧ number_of_call s' = number_of_call s ∧
  metric s' = metric s ∧ early_stop s' = early_stop s ∧
  search_space s' = search_space s.
Proof. by intros (d & c & ->). Qed.

Lemma raw_primary_scores_config s s' :
  same_config s s' →
  ∀ p n w, raw_primary_scores s' p n w = raw_primary_scores s p n w.
Proof.
  intros (d & c & ->) p n. induction n as [|n IH]; intros w; [done|].
  cbn [raw_primary_scores]. cbn [model dataset metric set_dict_model_runs
    set_current_call].
  destruct (train_model _ _ _ _ _ _ w) as [[o|] w1]; [|done].
  by rewrite IH.
Qed.

Lemma harness_ok_config s s' h :
  same_config s s' → harness_ok s' h → harness_ok s h.
Proof.
  intros Hc (Hlen & Hf & w & w' & Hsc).
  pose proof (raw_primary_scores_config _ _ Hc) as Hraw.
  destruct Hc as (d & c & ->).
  split; [done|]. split; [done|]. exists w, w'.
  unfold scored in *. by rewrite <- Hraw.
Qed.

Lemma zip_lookup_index {A B} (l1 : list A) (l2 : list B) i a b :
  0 ≤ i → Py.index l1 i = Some a → Py.index l2 i = Some b →
  zip l1 l2 !! Z.to_nat i = Some (a, b).
Proof.
  intros Hi. rewrite !index_nonneg by done. intros H1 H2.
  apply lookup_zip_with_Some. eauto.
Qed.

(** C1: when the harness returns for a candidate, the value returned is
    the median of the raw primary scores, negated exactly under
    ['Maximize'], where the raw primary scores are those that [model_runs]
    successive trainings on the candidate's parameters give under the
    primary metric, from the world in which the harness was called; the
    same list is what the harness records as its last event and (when no
    extra metric shares the name of the primary one) stores in the history
    under the key of the current call.  That value is what [optimize]
    passes to the backend's [tell] for the candidate: in every run of
    [optimize], whatever its outcome, the pairs told are the seed pairs
    that were reached followed, one for one and in order, by the candidate
    and value of each return of the harness, each of them the signed
    median of [model_runs] raw primary scores of that candidate. *)
Theorem harness_value_is_told :
  (∀ x st,
     let s := self st in
     let st' := state_of (_objective_function x st) in
     succeeded (_objective_function x st) = true →
     ∃ runs,
       scored s x runs (world st) (world st') ∧
       length runs = Z.to_nat (model_runs s) ∧
       returned (_objective_function x st) =
         Some (signed (optimization_type s) (median runs)) ∧
       last (trace st') =
         Some (EvHarness x runs
                 (signed (optimization_type s) (median runs))) ∧
       (class_name (metric s) ∉ class_name <$> extra_metrics s →
        stored_runs s runs (dict_model_runs (self st')))) ∧
  (∀ st, ∃ new seeds,
     trace (state_of (optimize st)) = trace st ++ new ∧
     tells new = seeds ++ (told <$> harness_returns new) ∧
     seeds `prefix_of` seed_pairs (self st) ∧
     Forall (harness_ok (self st)) (harness_returns new)).
Proof.
  split.
  { intros x st s st'. subst st'. pose proof (harness_spec x st) as H.
    destruct (_objective_function x st) as [r st'|]; [|done].
    intros _. cbn [state_of returned].
    destruct H as (runs & hnew & d & Hd & Htr & _ & [Hlen Hsc] & Hf & _ & Hst).
    exists runs. split; [done|]. split; [done|]. split; [by rewrite Hf|].
    split. { by rewrite Htr, app_assoc, last_snoc, Hf. }
    intros Hne. rewrite Hd. by apply Hst. }
  intros st. unfold optimize. run.
  set (s := self st).
  set (P := λ (i : Z) (t : list event),
    tells t = take (Z.to_nat (Z.min i (Py.len (x0 s)))) (seed_pairs s)
              ++ (told <$> harness_returns t) ∧
    (i ≤ Py.len (x0 s) → harness_returns t = []) ∧
    Forall (harness_ok s) (harness_returns t)).
  set (R := λ r : result loop_locals, ∃ new seeds,
    trace (state_of r) = trace st ++ new ∧
    tells new = seeds ++ (told <$> harness_returns new) ∧
    seeds `prefix_of` seed_pairs s ∧
    Forall (harness_ok s) (harness_returns new)).
  assert (∀ i new, P i new → ∃ seeds,
            tells new = seeds ++ (told <$> harness_returns new) ∧
            seeds `prefix_of` seed_pairs s ∧
            Forall (harness_ok s) (harness_returns new)) as HPR.
  { intros i new (Ht & _ & Hok). eexists. split; [exact Ht|].
    split; [|done]. eexists. symmetry. apply take_drop. }
  cut (R (for_each optimize_body (Py.range (number_of_call s))
            {| opt := choose_optimizer s false; time_eval := [];
               results := None |} st)).
  { unfold R. intros HR.
    destruct (for_each _ _ _ st) as [l' st'|e st']; [|exact HR].
    destruct (results l'); exact HR. }
  unfold Py.range, Py.range2. rewrite Z.sub_0_r.
  apply (for_range_inv _
    (λ i l' st', 0 ≤ i ∧ same_config s (self st') ∧
       ∃ new, trace st' = trace st ++ new ∧ P i new) R).
  - intros l' st' (_ & _ & new & Htr & HP).
    destruct (HPR _ _ HP) as (seeds & ?). by exists new, seeds.
  - intros i l' st' [Hi _] (_ & Hcfg & new & Htr & HP).
    destruct (same_config_fields _ _ Hcfg)
      as (Hx0 & Hy0 & Hot & Hmr & _).
    pose proof (optimize_body_spec i l' st' Hi) as Hb.
    (* what one more told block adds *)
    assert (∀ x f pre s1 T,
      (i < Py.len (x0 (self st')) ∧ seeded i st' x f pre s1 ∨
       Py.len (x0 (self st')) ≤ i ∧ asked l' st' x f pre s1) →
      tells T = [(x, f)] → harness_returns T = [] →
      same_config s s1 ∧
      ∀ m, P (i + 1) (new ++ EvPrint m :: pre ++ T)) as Hblock.
    { intros x f pre s1 T Hpath HT HH. rewrite Hx0 in Hpath.
      destruct HP as (Hte & Hnone & Hok).
      destruct Hpath as [[Hlt Hseed]|[Hge Hask]].
      - destruct Hseed as (-> & -> & Hxi & _ & y & Hyi & ->).
        split; [done|]. intros m. unfold P.
        change (EvPrint m :: [] ++ T) with ([EvPrint m] ++ T).
        rewrite !tells_app, !harness_returns_app, HT, HH, Hte.
        rewrite (Hnone ltac:(lia)). cbn [fmap list_fmap app tells
          harness_returns omap list_omap].
        rewrite !app_nil_r. split; [|split; [done|constructor]].
        replace (Z.to_nat (Z.min (i + 1) (Py.len (x0 s))))
          with (S (Z.to_nat i)) by lia.
        replace (Z.to_nat (Z.min i (Py.len (x0 s)))) with (Z.to_nat i) by lia.
        symmetry. apply take_S_r. unfold seed_pairs.
        rewrite Hx0, Hy0, Hot in *.
        apply zip_lookup_index; [done|done|].
        rewrite index_nonneg in * by done.
        by rewrite list_lookup_fmap, Hyi.
      - destruct (asked_obs _ _ _ _ _ _ Hask)
          as (runs & Hpt & Hph & Hpok & Hcfg1 & _).
        split. { destruct Hcfg as (d & c & Hs). rewrite Hs in Hcfg1.
                 destruct Hcfg1 as (d1 & c1 & ->). by exists d1, c1. }
        intros m. unfold P.
        change (EvPrint m :: pre ++ T) with ([EvPrint m] ++ pre ++ T).
        rewrite !tells_app, !harness_returns_app, HT, HH, Hte, Hpt, Hph.
        cbn [fmap list_fmap app tells harness_returns omap list_omap].
        rewrite fmap_app. cbn [fmap list_fmap told fst snd].
        replace (Z.to_nat (Z.min (i + 1) (Py.len (x0 s))))
          with (Z.to_nat (Z.min i (Py.len (x0 s)))) by lia.
        split; [by rewrite <- app_assoc|]. split; [lia|].
        apply Forall_app. split; [done|]. constructor; [|constructor].
        by eapply harness_ok_config. }
    destruct (optimize_body i l' st') as [[c l''] st''|e st''].
    + destruct Hb as (x & f & pre & s1 & Hpath & Hdone).
      destruct Hdone as (r & stop & Htr' & _ & _ & _ & _ & _ & _ & Hc & Hs').
      destruct (Hblock x f pre s1 (tail_events s1 i x f r stop) Hpath
                  (tail_tells _ _ _ _ _ _) (tail_harness_returns _ _ _ _ _ _))
        as [Hcfg1 HP'].
      specialize (HP' (current_call_message (current_call (self st')))).
      assert (trace st'' = trace st ++ new ++
                EvPrint (current_call_message (current_call (self st'))) ::
                pre ++ tail_events s1 i x f r stop) as Htr''.
      { rewrite Htr', Htr. by rewrite <- app_assoc. }
      destruct stop; subst c.
      * destruct (HPR _ _ HP') as (seeds & ?). by eexists _, seeds.
      * split; [lia|]. split; [rewrite Hs'; by apply same_config_call|].
        eauto.
    + destruct Hb as [(Hlt & _ & _ & Hs' & Htr')|[[Hge Hr]|Hz]].
      * destruct (HPR _ _ HP) as (seeds & Hseeds & Hpre & Hok).
        exists (new ++ [EvPrint (current_call_message
                                   (current_call (self st')))]), seeds.
        cbn [state_of]. rewrite Htr', Htr, <- app_assoc.
        rewrite !tells_app, !harness_returns_app. cbn. rewrite !app_nil_r.
        done.
      * destruct Hr as (hnew & d & _ & Htr' & HF).
        destruct (HPR _ _ HP) as (seeds & Hseeds & Hpre & Hok).
        eexists (new ++ EvPrint _ :: EvAsk _ :: hnew), seeds.
        cbn [state_of]. rewrite Htr', Htr, <- app_assoc.
        split; [done|].
        change (EvPrint ?m :: EvAsk ?a :: hnew)
          with ([EvPrint m; EvAsk a] ++ hnew).
        rewrite !tells_app, !harness_returns_app.
        rewrite (internal_tells _ _ HF), (internal_harness_returns _ _ HF).
        cbn. rewrite !app_nil_r. done.
      * destruct Hz as (x & f & pre & s1 & _ & Hpath & _ & _ & tl & Htr' & HF).
        destruct (Hblock x f pre s1 (EvTell x f :: tl) Hpath) as [_ HP'].
        { change (EvTell x f :: tl) with ([EvTell x f] ++ tl).
          by rewrite tells_app, (plots_tells _ HF). }
        { change (EvTell x f :: tl) with ([EvTell x f] ++ tl).
          by rewrite harness_returns_app, (plots_harness_returns _ HF). }
        specialize (HP' (current_call_message (current_call (self st')))).
        destruct (HPR _ _ HP') as (seeds & ?). eexists _, seeds.
        cbn [state_of]. rewrite Htr', Htr, <- app_assoc. done.
  - split; [lia|]. split; [apply same_config_refl|]. exists [].
    split; [by rewrite app_nil_r|]. unfold P. cbn.
    replace (Z.to_nat (Z.min 0 (Py.len (x0 s)))) with 0%nat by (unfold Py.len; lia).
    done.
Qed.

(** ** Summary of a completed loop *)

Lemma seqZ_snoc a j : 0 ≤ j → seqZ a (j + 1) = seqZ a j ++ [a + j].
Proof. intros Hj. by rewrite seqZ_app by lia. Qed.

Lemma not_stopped_by_call_messages c e :
  stop_message ∉ current_call_message <$> seqZ c e.
Proof.
  intros (i & Heq & _)%list_elem_of_fmap.
  by apply (current_call_message_not_stop i).
Qed.

Lemma loop_summary_holds body (J : Z → loop_locals → State → Prop)
    a n l st :
  0 ≤ a →
  J a l st →
  (∀ i l st', a ≤ i < a + n →
     same_config (self st) (self st') →
     current_call (self st') = current_call (self st) + (i - a) →
     J i l st' →
     match body i l st' with
     | Ok (c, l') st'' =>
         ∃ x f pre s1,
           (∃ d, s1 = set_dict_model_runs d (self st')) ∧
           saves pre = [] ∧ prints pre = [] ∧ tells pre = [] ∧
           step_done i l l' st' st'' c x f pre s1 ∧
           J (i + 1) l' st''
     | Raise _ _ => True
     end) →
  match for_each body (seqZ a n) l st with
  | Ok l' st' =>
      ∃ e stop, loop_summary a st st' e stop ∧
                0 ≤ e ≤ Z.max n 0 ∧
                (stop = false → e = Z.max n 0) ∧ (stop = true → 0 < e) ∧
                (0 < e → is_Some (results l')) ∧ (e = 0 → l' = l) ∧
                J (a + e) l' st'
  | Raise _ _ => True
  end.
Proof.
  intros Ha HJ Hbody. set (s := self st).
  apply (for_range_inv body
    (λ i l' st', a ≤ i ≤ a + Z.max n 0 ∧ loop_summary a st st' (i - a) false ∧
                 (a < i → is_Some (results l')) ∧ (i = a → l' = l) ∧
                 J i l' st')
    (λ r, match r with
          | Ok l' st' =>
              ∃ e stop, loop_summary a st st' e stop ∧
                0 ≤ e ≤ Z.max n 0 ∧
                (stop = false → e = Z.max n 0) ∧ (stop = true → 0 < e) ∧
                (0 < e → is_Some (results l')) ∧ (e = 0 → l' = l) ∧
                J (a + e) l' st'
          | Raise _ _ => True
          end)).
  - intros l' st' (Hi & Hsum & Hres & Hl & HJ').
    exists (a + Z.max n 0 - a), false. split; [done|].
    split; [lia|]. split; [lia|]. split; [done|].
    split; [intros; apply Hres; lia|]. split; [intros; apply Hl; lia|].
    by replace (a + (a + Z.max n 0 - a)) with (a + Z.max n 0) by lia.
  - intros i l' st' Hi (Hi' & Hsum & Hres & Hl & HJ').
    destruct Hsum as (new & Htr & Hcfg & Hcc & Hes & Hsaves & Hprints
                      & Htells & _).
    assert (current_call (self st') = current_call (self st) + (i - a))
      as Hcc0 by (rewrite Hcc; unfold s; lia).
    specialize (Hbody i l' st' Hi Hcfg Hcc0 HJ').
    destruct (body i l' st') as [[c l''] st''|]; [|done].
    destruct Hbody
      as (x & f & pre & s1 & [d Hs1] & Hsv & Hpr & Hte & Hdone & HJ'').
    destruct Hdone as (r & stop & Htr' & Hr & _ & _ & _ & Hss & _ & Hc & Hs').
    destruct (same_config_fields _ _ Hcfg) as (_ & _ & _ & _ & _ & Hstep & _).
    assert (same_config s s1) as Hcfg1 by (subst s1; by apply same_config_dict).
    destruct (same_config_fields _ _ Hcfg1) as (_ & _ & _ & _ & _ & Hstep1 & _).
    assert (current_call s1 = current_call (self st')) as Hcc1 by by subst s1.
    fold s in Hcc, Hsaves, Hprints, Hstep, Hstep1.
    assert (loop_summary a st st'' (i + 1 - a) stop) as Hsum'.
    { exists (new ++ EvPrint (current_call_message (current_call (self st')))
                :: pre ++ tail_events s1 i x f r stop).
      split; [by rewrite Htr', Htr, <- app_assoc|].
      split. { rewrite Hs'. destruct stop; [done|by apply same_config_call]. }
      split. { rewrite Hs'. fold s. destruct stop; cbn; lia. }
      change (EvPrint ?m :: pre ++ ?T) with ([EvPrint m] ++ pre ++ T).
      unfold early_stopped.
      rewrite !saves_app, !prints_app, !tells_app, Hsv, Hpr, Hte, Hsaves,
        Hprints, tail_saves, tail_prints, tail_tells, Hstep1.
      fold s. cbn [saves prints tells omap list_omap app].
      rewrite app_nil_r.
      replace (i + 1 - a) with (i - a + 1) by lia.
      rewrite !seqZ_snoc by lia. rewrite fmap_app, filter_app.
      replace (a + (i - a)) with i by lia. cbn [fmap list_fmap].
      rewrite Hcc. replace (current_call s + (i - a) - 0)
        with (current_call s + (i - a)) by lia.
      split.
      { destruct stop.
        - apply bool_decide_eq_true. set_solver.
        - apply bool_decide_eq_false.
          intros [H|H%list_elem_of_singleton]%elem_of_app.
          + by apply not_stopped_by_call_messages in H.
          + by apply eq_sym, current_call_message_not_stop in H. }
      split.
      { f_equal. rewrite filter_cons, filter_nil.
        destruct (Z.eqb_spec (i `mod` save_step s) 0);
          by case_decide. }
      split; [by rewrite <- app_assoc|].
      split; [rewrite length_app, Htells; cbn; lia|].
      intros _. by rewrite <- Hstep1. }
    destruct stop; subst c.
    + exists (i + 1 - a), true. split; [done|]. split; [lia|].
      split; [done|]. split; [lia|]. split; [by rewrite Hr|].
      split; [lia|]. by replace (a + (i + 1 - a)) with (i + 1) by lia.
    + split; [lia|]. split; [done|]. split; [by rewrite Hr|].
      split; [lia|done].
  - split; [lia|]. split; [|split; [lia|done]]. exists [].
    rewrite Z.sub_diag.
    split; [by rewrite app_nil_r|]. split; [apply same_config_refl|].
    split; [lia|]. split; [done|]. split; [done|]. split; [done|].
    split; [done|lia].
Qed.

(** ** The two loops satisfy the contract of the summary *)

Lemma optimize_body_contract i l st :
  0 ≤ i →
  match optimize_body i l st with
  | Ok (c, l') st' =>
      ∃ x f pre s1,
        (∃ d, s1 = set_dict_model_runs d (self st)) ∧
        saves pre = [] ∧ prints pre = [] ∧ tells pre = [] ∧
        step_done i l l' st st' c x f pre s1
  | Raise _ _ => True
  end.
Proof.
  intros Hi. pose proof (optimize_body_spec i l st Hi) as H.
  destruct (optimize_body i l st) as [[c l'] st'|]; [|done].
  destruct H as (x & f & pre & s1 & [[_ Hseed]|[_ Hask]] & Hdone);
    exists x, f, pre, s1.
  - destruct Hseed as (-> & -> & _). split; [|done].
    exists (dict_model_runs (self st)). by rewrite set_dict_model_runs_id.
  - destruct (asked_obs _ _ _ _ _ _ Hask)
      as (runs & Ht & _ & _ & _ & _ & Hs & _ & Hp & _).
    destruct Hask as (_ & ? & ? & d & _ & -> & _). split; [by exists d|done].
Qed.

Lemma restart_body_contract i l st :
  match restart_body i l st with
  | Ok (c, l') st' =>
      ∃ x f pre s1,
        (∃ d, s1 = set_dict_model_runs d (self st)) ∧
        saves pre = [] ∧ prints pre = [] ∧ tells pre = [] ∧
        step_done i l l' st st' c x f pre s1
  | Raise _ _ => True
  end.
Proof.
  pose proof (restart_body_spec i l st) as H.
  destruct (restart_body i l st) as [[c l'] st'|]; [|done].
  destruct H as (x & f & pre & s1 & Hask & Hdone). exists x, f, pre, s1.
  destruct (asked_obs _ _ _ _ _ _ Hask)
    as (runs & Ht & _ & _ & _ & _ & Hs & _ & Hp & _).
  destruct Hask as (_ & ? & ? & d & _ & -> & _). split; [by exists d|done].
Qed.

(** ** The start of a restart and the replay *)

Lemma restart_optimize_unfold a st :
  restart_optimize a st =
  (let B := r_BestObject a in
   let k := Py.len (bo_time B) in
   o ← for_each (replay_body B) (Py.range k)
         (choose_optimizer (reinitialize a (self st)) true);
   s ← get_self;
   l ← for_each restart_body (Py.range2 k (number_of_call s))
         {| opt := o; time_eval := bo_time B; results := None |};
   from_option Py.UnboundLocalError (results l))
    {| self := restart_start a (self st); world := world st;
       trace := trace st |}.
Proof. reflexivity. Qed.

Lemma comprehension_pure {A B} (f : A → M B) (g : A → option B) l st :
  (∀ a, match f a st with
        | Ok b st' => st' = st ∧ g a = Some b
        | Raise _ st' => st' = st ∧ g a = None
        end) →
  match comprehension f l st with
  | Ok bs st' => st' = st ∧ mapM g l = Some bs
  | Raise _ st' => st' = st ∧ mapM g l = None
  end.
Proof.
  intros Hf. induction l as [|a l IH]; [done|].
  cbn [comprehension]. run. specialize (Hf a).
  destruct (f a st) as [b st1|e st1]; destruct Hf as [-> Hg].
  - run. destruct (comprehension f l st) as [bs st2|e st2];
      destruct IH as [-> IH]; run.
    + split; [done|]. cbn. by rewrite Hg, IH.
    + split; [done|]. cbn. by rewrite Hg, IH.
  - split; [done|]. cbn. by rewrite Hg.
Qed.

Lemma replay_body_spec B i o st :
  match replay_body B i o st with
  | Ok (c, o') st' =>
      c = Continue ∧
      ∃ p, replay_pair B (hyperparameters (self st))
             (optimization_type (self st)) i = Some p ∧
           st' = {| self := self st; world := world st;
                    trace := trace st ++ [tell_event p] |}
  | Raise _ st' =>
      st' = st ∧
      replay_pair B (hyperparameters (self st))
        (optimization_type (self st)) i = None
  end.
Proof.
  unfold replay_body, replay_pair. run.
  match goal with
  | |- context [comprehension ?f ?l st] =>
      pose proof (comprehension_pure f
        (λ key, bo_x_iters B !! key ≫= λ column, Py.index column i) l st)
        as Hc
  end.
  lapply Hc; clear Hc.
  2:{ intros key. run. destruct (bo_x_iters B !! key) as [col|]; run; [|done].
      cbn. by destruct (Py.index col i). }
  intros Hc.
  destruct (comprehension _ _ st) as [x st1|e st1]; destruct Hc as [-> Hx];
    rewrite Hx; [|done].
  run. destruct (Py.index (bo_f_val B) i) as [y|]; run; [|done].
  destruct (tell _ _ o) as [res o']. run. split; [done|].
  by eexists (_, _).
Qed.

Lemma replay_loop_spec B k o st :
  let names := hyperparameters (self st) in
  let otype := optimization_type (self st) in
  match for_each (replay_body B) (Py.range k) o st with
  | Ok o' st' =>
      ∃ pairs,
        mapM (replay_pair B names otype) (Py.range k) = Some pairs ∧
        st' = {| self := self st; world := world st;
                 trace := trace st ++ (tell_event <$> pairs) |}
  | Raise _ st' =>
      mapM (replay_pair B names otype) (Py.range k) = None ∧
      self st' = self st ∧
      ∃ pre pairs,
        pre `prefix_of` Py.range k ∧
        Forall2 (λ i p, replay_pair B names otype i = Some p) pre pairs ∧
        trace st' = trace st ++ (tell_event <$> pairs) ∧
        ∃ i, Py.range k !! length pre = Some i ∧
             replay_pair B names otype i = None
  end.
Proof.
  intros names otype. unfold Py.range, Py.range2. rewrite Z.sub_0_r.
  pose proof (for_each_inv (replay_body B)
    (λ pre o' st', ∃ pairs,
       Forall2 (λ i p, replay_pair B names otype i = Some p) pre pairs ∧
       st' = {| self := self st; world := world st;
                trace := trace st ++ (tell_event <$> pairs) |})
    (λ r, match r with
          | Ok o' st' =>
              ∃ pairs,
                mapM (replay_pair B names otype) (seqZ 0 k) = Some pairs ∧
                st' = {| self := self st; world := world st;
                         trace := trace st ++ (tell_event <$> pairs) |}
          | Raise _ st' =>
              mapM (replay_pair B names otype) (seqZ 0 k) = None ∧
              self st' = self st ∧
              ∃ pre pairs,
                pre `prefix_of` seqZ 0 k ∧
                Forall2 (λ i p, replay_pair B names otype i = Some p)
                  pre pairs ∧
                trace st' = trace st ++ (tell_event <$> pairs) ∧
                ∃ i, seqZ 0 k !! length pre = Some i ∧
                     replay_pair B names otype i = None
          end) (seqZ 0 k)) as H.
  apply H; clear H.
  - intros o' st' (pairs & HF & ->). exists pairs. split; [|done].
    by apply mapM_Some.
  - intros pre i post o' st' Hidx (pairs & HF & ->).
    pose proof (replay_body_spec B i o'
      {| self := self st; world := world st;
         trace := trace st ++ (tell_event <$> pairs) |}) as Hb.
    destruct (replay_body B i o' _) as [[c o''] st''|e st''].
    + destruct Hb as (-> & p & Hp & ->). exists (pairs ++ [p]).
      split; [apply Forall2_app; [done|by constructor]|].
      cbn [self world trace]. by rewrite fmap_app, app_assoc.
    + destruct Hb as (-> & Hp). cbn [self trace] in *.
      split; [|split; [done|exists pre, pairs; split; [|split_and!; try done]]].
      2:{ rewrite Hidx. by eexists. }
      2:{ exists i. split; [|done]. rewrite Hidx. apply list_lookup_middle.
          done. }
      apply mapM_None. rewrite Hidx. apply Exists_app. right. by left.
  - exists []. split; [constructor|]. cbn. rewrite app_nil_r. by destruct st.
Qed.

(** ** Whole runs *)

Lemma new_events_app st st' new :
  trace st' = trace st ++ new → new_events st st' = new.
Proof. intros H. unfold new_events. by rewrite H, drop_app_length. Qed.

Lemma restart_run a st :
  let B := r_BestObject a in
  let k := Py.len (bo_time B) in
  let n := r_number_of_call a in
  let s1 := restart_start a (self st) in
  match restart_optimize a st with
  | Ok _ st' =>
      ∃ pairs e stop,
        mapM (replay_pair B (hyperparameters (self st))
                (optimization_type s1)) (Py.range k) = Some pairs ∧
        loop_summary k
          {| self := s1; world := world st;
             trace := trace st ++ (tell_event <$> pairs) |} st' e stop ∧
        0 < e ≤ n ∧ (stop = false → e = n)
  | Raise _ _ => True
  end.
Proof.
  intros B k n s1. rewrite restart_optimize_unfold. fold B k s1.
  cbn zeta. run.
  pose proof (replay_loop_spec B k
    (choose_optimizer (reinitialize a (self st)) true)
    {| self := s1; world := world st; trace := trace st |}) as Hre.
  cbn [self world trace] in Hre. fold k.
  destruct (for_each (replay_body B) _ _ _) as [o st2|]; [|done].
  destruct Hre as (pairs & Hpairs & ->). run.
  change (number_of_call s1) with (k + n).
  match goal with
  | |- context [for_each restart_body _ ?l0 ?st2] =>
      pose proof (loop_summary_holds restart_body (λ _ _ _, True) k n l0 st2)
        as H
  end.
  lapply H; [clear H; intros H|unfold k, Py.len; lia].
  specialize (H I). lapply H; clear H.
  2:{ intros i l st' _ _ _ _.
      pose proof (restart_body_contract i l st') as Hc.
      destruct (restart_body i l st') as [[c l''] st''|]; [|done].
      destruct Hc as (x & f & pre & s2 & ? & ? & ? & ? & ?).
      by exists x, f, pre, s2. }
  unfold Py.range2. replace (k + n - k) with n by lia. intros H.
  destruct (for_each restart_body _ _ _) as [l' st'|]; [|done].
  destruct H as (e & stop & Hsum & He & Hfull & Hpos & Hres & Hl & _).
  run. destruct (results l') as [r|] eqn:Hr; run; [|done].
  assert (0 < e) as Hlt.
  { destruct (decide (e = 0)) as [->|]; [|lia].
    specialize (Hl eq_refl). by subst l'. }
  exists pairs, e, stop. split; [done|]. split; [done|].
  split; [lia|]. intros Hs. specialize (Hfull Hs). lia.
Qed.

Lemma tell_events_quiet pairs :
  saves (tell_event <$> pairs) = [] ∧ prints (tell_event <$> pairs) = [] ∧
  asks (tell_event <$> pairs) = [] ∧
  harness_returns (tell_event <$> pairs) = [] ∧
  trains (tell_event <$> pairs) = [] ∧
  tells (tell_event <$> pairs) = pairs.
Proof.
  induction pairs as [|[x f] pairs (H1 & H2 & H3 & H4 & H5 & H6)]; [done|].
  split_and!; try done. cbn. f_equal. exact H6.
Qed.

Lemma checkpoints_app t1 t2 :
  checkpoints (t1 ++ t2) = checkpoints t1 ++ checkpoints t2.
Proof. apply omap_app. Qed.

Lemma saves_checkpoints t : saves t = (λ c, c.1.1) <$> checkpoints t.
Proof.
  induction t as [|e t IH]; [done|].
  unfold saves, checkpoints in *.
  destruct e; cbn [omap list_omap fmap list_fmap fst]; by rewrite ?IH.
Qed.

Lemma no_saves_no_checkpoints t : saves t = [] → checkpoints t = [].
Proof.
  rewrite saves_checkpoints. apply fmap_nil_inv.
Qed.

Lemma tail_checkpoints s i x f r stop :
  checkpoints (tail_events s i x f r stop) =
  if i `mod` save_step s =? 0
  then [(i, save_path s +:+ save_name s +:+ ".json", r)] else [].
Proof.
  unfold tail_events.
  by destruct (plot_best_seen s), (_ =? 0), (_ && _), stop.
Qed.

Lemma checkpoint_ok_mono s a t0 T T' c :
  checkpoint_ok s a t0 T c → checkpoint_ok s a t0 (T ++ T') c.
Proof.
  intros (H1 & H2 & H3 & H4 & x & f & o & H5 & H6).
  split_and!; try done. exists x, f, o.
  split; [by apply lookup_app_l_Some|done].
Qed.

(** A loop whose body satisfies the contract writes checkpoints that
    hold the state of their iteration. *)
Lemma checkpoints_loop body a n l st :
  0 ≤ a →
  (∀ i l st', a ≤ i < a + n →
     match body i l st' with
     | Ok (c, l') st'' =>
         ∃ x f pre s1,
           (∃ d, s1 = set_dict_model_runs d (self st')) ∧
           saves pre = [] ∧ prints pre = [] ∧ tells pre = [] ∧
           step_done i l l' st' st'' c x f pre s1
     | Raise _ _ => True
     end) →
  match for_each body (seqZ a n) l st with
  | Ok l' st' =>
      ∃ e stop, loop_summary a st st' e stop ∧
                0 ≤ e ≤ Z.max n 0 ∧
                (stop = false → e = Z.max n 0) ∧ (e = 0 → l' = l) ∧
                Forall (checkpoint_ok (self st) a (length (time_eval l))
                          (tells (new_events st st')))
                  (checkpoints (new_events st st'))
  | Raise _ _ => True
  end.
Proof.
  intros Ha Hbody.
  set (t0 := length (time_eval l)). set (s := self st).
  set (J := λ (i : Z) (l' : loop_locals) (st' : State),
    length (time_eval l') = (t0 + Z.to_nat (i - a))%nat ∧
    ∃ new, trace st' = trace st ++ new ∧
           length (tells new) = Z.to_nat (i - a) ∧
           Forall (checkpoint_ok s a t0 (tells new)) (checkpoints new)).
  pose proof (loop_summary_holds body J a n l st Ha) as H.
  lapply H; clear H.
  2:{ unfold J. rewrite Z.sub_diag. split; [unfold t0; cbn; lia|]. exists [].
      rewrite app_nil_r. split; [done|]. split; [done|]. constructor. }
  intros H. lapply H; clear H.
  2:{ intros i l1 st1 Hi Hcfg Hcc (Hlen & new & Htr & Htl & Hok).
      specialize (Hbody i l1 st1 Hi).
      destruct (body i l1 st1) as [[c l2] st2|]; [|done].
      destruct Hbody as (x & f & pre & s1 & Hs1 & Hsv & Hpr & Hte & Hdone).
      exists x, f, pre, s1.
      split; [done|]. split; [done|]. split; [done|]. split; [done|].
      split; [done|].
      destruct Hdone as (r & stop & Htr' & Hr & [Hbo Hres] & Hbt & Hlt & _).
      unfold J. split; [rewrite Hlt, Hlen; lia|].
      exists (new ++ EvPrint (current_call_message (current_call (self st1)))
                :: pre ++ tail_events s1 i x f r stop).
      split; [by rewrite Htr', Htr, <- app_assoc|].
      change (EvPrint ?m :: pre ++ ?T) with ([EvPrint m] ++ pre ++ T).
      rewrite !tells_app, !checkpoints_app, Hte, tail_tells,
        tail_checkpoints, (no_saves_no_checkpoints _ Hsv).
      cbn [tells checkpoints omap list_omap app].
      split. { rewrite length_app, Htl. cbn. lia. }
      apply Forall_app. split.
      { eapply Forall_impl; [exact Hok|]. intros c'.
        apply checkpoint_ok_mono. }
      destruct (_ =? 0); constructor; [|constructor].
      destruct Hs1 as [d ->]. destruct Hres as [o Hres].
      unfold checkpoint_ok. cbn [fst snd]. rewrite Hbo. split_and!.
      - by destruct Hcfg as (d' & c' & ->).
      - by apply same_config_dict.
      - exact Hcc.
      - rewrite Hbt, Hlt, Hlen. lia.
      - exists x, f, o. split; [|done].
        rewrite lookup_app_r by lia. by rewrite Htl, Nat.sub_diag. }
  intros H.
  destruct (for_each body (seqZ a n) l st) as [l' st'|]; [|done].
  destruct H as (e & stop & Hsum & He & Hfull & _ & _ & Hl & HJ).
  exists e, stop. split; [done|]. split; [done|]. split; [done|].
  split; [done|].
  destruct HJ as (_ & new & Htr & _ & Hok).
  by rewrite (new_events_app _ _ _ Htr).
Qed.

Lemma optimize_saved st :
  match optimize st with
  | Ok _ st' =>
      ∃ e stop,
        loop_summary 0 st st' e stop ∧
        0 < e ≤ number_of_call (self st) ∧
        (stop = false → e = number_of_call (self st)) ∧
        Forall (checkpoint_ok (self st) 0 0 (tells (new_events st st')))
          (checkpoints (new_events st st'))
  | Raise _ _ => True
  end.
Proof.
  unfold optimize. run.
  match goal with
  | |- context [for_each optimize_body (Py.range ?n) ?l0 st] =>
      pose proof (checkpoints_loop optimize_body 0 n l0 st ltac:(done)) as H
  end.
  lapply H; clear H.
  2:{ intros i l st' [Hi _]. apply (optimize_body_contract i l st' Hi). }
  unfold Py.range, Py.range2. rewrite Z.sub_0_r. intros H.
  destruct (for_each optimize_body _ _ st) as [l' st'|]; [|done].
  destruct H as (e & stop & Hsum & He & Hfull & Hl & Hok).
  run. destruct (results l') as [r|] eqn:Hr; run; [|done].
  assert (0 < e) as Hlt.
  { destruct (decide (e = 0)) as [->|]; [|lia].
    specialize (Hl eq_refl). by subst l'. }
  exists e, stop. split; [done|]. split; [lia|].
  split; [intros Hs; specialize (Hfull Hs); lia|]. exact Hok.
Qed.

Lemma restart_saved a st :
  let B := r_BestObject a in
  let k := Py.len (bo_time B) in
  let n := r_number_of_call a in
  let s1 := restart_start a (self st) in
  match restart_optimize a st with
  | Ok _ st' =>
      ∃ pairs e stop,
        mapM (replay_pair B (hyperparameters (self st))
                (optimization_type s1)) (Py.range k) = Some pairs ∧
        loop_summary k
          {| self := s1; world := world st;
             trace := trace st ++ (tell_event <$> pairs) |} st' e stop ∧
        0 < e ≤ n ∧ (stop = false → e = n) ∧
        Forall (checkpoint_ok s1 k (length (bo_time B))
                  (tells (drop (length pairs) (new_events st st'))))
          (checkpoints (drop (length pairs) (new_events st st')))
  | Raise _ _ => True
  end.
Proof.
  intros B k n s1. rewrite restart_optimize_unfold. fold B k s1.
  cbn zeta. run.
  pose proof (replay_loop_spec B k
    (choose_optimizer (reinitialize a (self st)) true)
    {| self := s1; world := world st; trace := trace st |}) as Hre.
  cbn [self world trace] in Hre. fold k.
  destruct (for_each (replay_body B) _ _ _) as [o st2|]; [|done].
  destruct Hre as (pairs & Hpairs & ->). run.
  change (number_of_call s1) with (k + n).
  match goal with
  | |- context [for_each restart_body _ ?l0 ?st2] =>
      pose proof (checkpoints_loop restart_body k n l0 st2) as H
  end.
  lapply H; [clear H; intros H|unfold k, Py.len; lia].
  lapply H; clear H.
  2:{ intros i l st' _. apply restart_body_contract. }
  unfold Py.range2. replace (k + n - k) with n by lia. intros H.
  destruct (for_each restart_body _ _ _) as [l' st'|]; [|done].
  destruct H as (e & stop & Hsum & He & Hfull & Hl & Hok).
  run. destruct (results l') as [r|] eqn:Hr; run; [|done].
  assert (0 < e) as Hlt.
  { destruct (decide (e = 0)) as [->|]; [|lia].
    specialize (Hl eq_refl). by subst l'. }
  exists pairs, e, stop. split; [done|]. split; [done|].
  split; [lia|]. split; [intros Hs; specialize (Hfull Hs); lia|].
  cbn [time_eval self] in Hok.
  destruct Hsum as (new & Htr & _).
  rewrite (new_events_app _ _ _ Htr) in Hok. cbn [trace] in Htr.
  rewrite <- app_assoc in Htr. rewrite (new_events_app _ _ _ Htr).
  rewrite <- (length_fmap tell_event pairs). by rewrite drop_app_length.
Qed.

(** C7: both loops write the checkpoint at loop index [i] exactly when
    [i % save_step == 0], and what they write is the state of that
    iteration.  A run of [optimize] that returns has a non-zero
    [save_step]; it ran [e] iterations, as many as the backend was told
    values, with [0 < e <= number_of_call] and [e = number_of_call] unless
    early stopping left the loop.  The checkpoints written are, in order,
    those of the multiples of [save_step] among [0 .. e-1], and no others;
    each is written to [save_path + save_name + ".json"] and holds the
    optimizer itself as it is at that iteration (its configuration, its
    call counter equal to the index), the result of the [tell] of that
    iteration, and one timing for each iteration so far.  The same holds
    of a run of [restart_optimize] that returns, for the indices
    [k .. k+e-1] with [k] the iterations in the checkpoint restarted from,
    [e <= number_of_call] of the restart, the attributes with which the
    restart enters its loops, and the [k] timings of the checkpoint
    followed by the new ones. *)
Theorem checkpoint_cadence :
  (∀ st,
     let s := self st in
     let st' := state_of (optimize st) in
     let new := new_events st st' in
     let e := Z.of_nat (length (tells new)) in
     succeeded (optimize st) = true →
     save_step s ≠ 0 ∧
     0 < e ≤ number_of_call s ∧
     (early_stopped new = false → e = number_of_call s) ∧
     (λ c, c.1.1) <$> checkpoints new =
       filter (λ i, i `mod` save_step s = 0) (seqZ 0 e) ∧
     (∀ i, i ∈ saves new ↔ 0 ≤ i < e ∧ (save_step s | i)) ∧
     Forall (checkpoint_ok s 0 0 (tells new)) (checkpoints new)) ∧
  (∀ a st,
     let B := r_BestObject a in
     let k := Py.len (bo_time B) in
     let s1 := restart_start a (self st) in
     let st' := state_of (restart_optimize a st) in
     let new := new_events st st' in
     let e := Z.of_nat (length (tells new)) - k in
     succeeded (restart_optimize a st) = true →
     save_step s1 ≠ 0 ∧ save_step (self st') = save_step s1 ∧
     0 < e ≤ r_number_of_call a ∧
     (early_stopped new = false → e = r_number_of_call a) ∧
     (λ c, c.1.1) <$> checkpoints new =
       filter (λ i, i `mod` save_step s1 = 0) (seqZ k e) ∧
     (∀ i, i ∈ saves new ↔ k ≤ i < k + e ∧ (save_step s1 | i)) ∧
     Forall (checkpoint_ok s1 k (length (bo_time B))
               (drop (Z.to_nat k) (tells new)))
       (checkpoints new)).
Proof.
  assert (∀ (step a e : Z) (l : list Z), step ≠ 0 →
            l = filter (λ i, i `mod` step = 0) (seqZ a e) →
            ∀ i, i ∈ l ↔ a ≤ i < a + e ∧ (step | i)) as Hiff.
  { intros step a e l Hstep -> i.
    rewrite list_elem_of_filter, elem_of_seqZ, Z.mod_divide by done.
    tauto. }
  split.
  - intros st s st' new e Hok. subst s st' new e.
    pose proof (optimize_saved st) as H.
    destruct (optimize st) as [r st'|]; [|done]. cbn [state_of].
    destruct H as (e & stop & Hsum & He & Hfull & Hck).
    destruct Hsum as (new & Htr & _ & _ & Hes & Hsaves & _ & Htells & Hstep).
    rewrite (new_events_app _ _ _ Htr) in *.
    assert (save_step (self st) ≠ 0) as Hne by (apply Hstep; lia).
    rewrite Htells. replace (Z.of_nat (Z.to_nat e)) with e by lia.
    split; [done|]. split; [done|].
    split; [intros Hs; apply Hfull; by rewrite <- Hes|].
    split; [by rewrite <- saves_checkpoints|].
    split; [|done]. intros i.
    rewrite (Hiff _ _ _ _ Hne Hsaves). by rewrite Z.add_0_l.
  - intros a st B k s1 st' new e Hok. subst st' new e.
    pose proof (restart_saved a st) as H.
    destruct (restart_optimize a st) as [r st'|]; [|done]. cbn [state_of].
    fold B k s1 in H.
    destruct H as (pairs & e & stop & Hpairs & Hsum & He & Hfull & Hck).
    destruct Hsum as (new & Htr & Hcfg & _ & Hes & Hsaves & _ & Htells
                      & Hstep).
    cbn [self trace] in *.
    destruct (same_config_fields _ _ Hcfg) as (_ & _ & _ & _ & _ & Hss & _).
    rewrite <- app_assoc in Htr. rewrite (new_events_app _ _ _ Htr) in *.
    destruct (tell_events_quiet pairs) as (Hs0 & Hp0 & _ & _ & _ & Ht0).
    apply length_mapM in Hpairs.
    unfold Py.range, Py.range2 in Hpairs. rewrite length_seqZ in Hpairs.
    assert (length pairs = Z.to_nat k) as Hlp by (unfold k; lia).
    clear Hpairs.
    rewrite <- (length_fmap tell_event pairs), drop_app_length in Hck.
    assert (save_step s1 ≠ 0) as Hne by (apply Hstep; lia).
    unfold early_stopped in *.
    rewrite prints_app, Hp0, app_nil_l, Hes.
    rewrite tells_app, Ht0, length_app, Htells.
    rewrite checkpoints_app, (no_saves_no_checkpoints _ Hs0), app_nil_l.
    rewrite saves_app, Hs0, app_nil_l.
    rewrite <- Hlp, drop_app_length.
    replace (Z.of_nat (length pairs + Z.to_nat e) - k) with e
      by (unfold k, Py.len in *; lia).
    split; [done|]. split; [done|]. split; [done|]. split; [done|].
    split; [by rewrite <- saves_checkpoints|].
    split; [|done]. intros i. by apply Hiff.
Qed.

(** C6: a restart from a checkpoint with [k] completed iterations and
    [n] additional calls sets the budget to [k + n] and the call counter
    to [k]; a run that returns without an early stop enters its loop [n]
    times with the counter at [k, k+1, .., k+n-1] (the values it prints),
    leaves it at [k + n], and has told the backend [k] replayed and [n]
    new values. *)
Theorem restart_continues_the_count a st :
  let k := Py.len (bo_time (r_BestObject a)) in
  let n := r_number_of_call a in
  let st' := state_of (restart_optimize a st) in
  let new := new_events st st' in
  succeeded (restart_optimize a st) = true →
  early_stopped new = false →
  number_of_call (self st') = k + n ∧
  current_call (self st') = k + n ∧
  prints new = current_call_message <$> seqZ k n ∧
  length (tells new) = Z.to_nat (k + n).
Proof.
  intros k n st' new Hok. subst st' new.
  pose proof (restart_run a st) as H.
  destruct (restart_optimize a st) as [r st'|]; [|done]. cbn [state_of].
  destruct H as (pairs & e & stop & Hpairs & Hsum & He & Hfull).
  destruct Hsum as (new & Htr & Hcfg & Hcc & Hes & _ & Hprints & Htells & _).
  cbn [self trace] in *.
  destruct (same_config_fields _ _ Hcfg)
    as (_ & _ & _ & _ & _ & _ & Hnc & _).
  rewrite <- app_assoc in Htr. rewrite (new_events_app _ _ _ Htr).
  destruct (tell_events_quiet pairs) as (_ & Hp0 & _ & _ & _ & Ht0).
  unfold early_stopped in *. rewrite prints_app, Hp0, app_nil_l, Hes.
  intros ->. specialize (Hfull eq_refl). subst e.
  rewrite tells_app, Ht0, length_app, Htells, Hprints, Hcc, Hnc.
  rewrite app_nil_r.
  apply length_mapM in Hpairs.
  unfold Py.range, Py.range2 in Hpairs. rewrite length_seqZ in Hpairs.
  split; [done|]. split; [change (current_call _) with k; lia|].
  split; [done|]. fold k in Hpairs. rewrite <- Hpairs. unfold k, Py.len. lia.
Qed.

(** ** The validator and the constructor *)

Lemma renamed_refl s : renamed s s.
Proof.
  exists (plot_name s), (save_name s), (save_path s), (model_path_models s).
  by destruct s.
Qed.

Lemma check_BO_parameters_frame st :
  renamed (self st) (self (state_of (check_BO_parameters st))) ∧
  grows construction_event st (state_of (check_BO_parameters st)).
Proof.
  unfold check_BO_parameters. run.
  repeat match goal with
  | |- context [if negb ?b then _ else _] => destruct b; cbn [negb]; run
  | |- context [if ?a <=? ?b then _ else _] => destruct (a <=? b); run
  end; cbn [state_of self trace mret M_ret];
    try (split; [apply renamed_refl|solve_grows]).
  destruct (Py.endswith (plot_name (self st)) ".png"),
    (Py.endswith (save_name (self st)) ".json"); run.
  all: destruct (Py.last_char (save_path (self st))) as [c|]; run.
  all: try (destruct (negb (Ascii.eqb c "/")); run).
  all: cbn [save_models set_save_path set_save_name set_plot_name].
  all: try (destruct (save_models (self st)) eqn:Esm; run).
  all: cbn [state_of self trace mret M_ret]; (split; [|solve_grows]).
  all: match goal with
       | |- renamed _ ?s' =>
           exists (plot_name s'), (save_name s'), (save_path s'),
             (model_path_models s')
       end.
  all: by destruct (self st).
Qed.

Lemma for_in_histories (extra : list Metric) st :
  for_in (λ m, modify_self (λ s, set_dict_model_runs
            (<[class_name m := ∅]> (dict_model_runs s)) s)) extra st =
  Ok tt {| self := set_dict_model_runs
                     (foldl (λ d m, <[class_name m := ∅]> d)
                        (dict_model_runs (self st)) extra) (self st);
           world := world st; trace := trace st |}.
Proof.
  revert st. induction extra as [|m extra IH]; intros st.
  - cbn. rewrite set_dict_model_runs_id. by destruct st.
  - cbn [for_in foldl]. run. by rewrite IH.
Qed.

Lemma init_spec a w :
  let st' := state_of (__init__ a w) in
  renamed (set_dict_model_runs (initial_histories a) (new_optimizer a))
    (self st') ∧
  Forall construction_event (trace st').
Proof.
  unfold __init__, init_body. run. rewrite for_in_histories. run.
  match goal with
  | |- context [check_BO_parameters ?st1] =>
      pose proof (check_BO_parameters_frame st1) as [Hr (new & Htr & HF)];
      destruct (check_BO_parameters st1) as [r st2|e st2]
  end; cbn [state_of self trace] in *.
  - destruct (bool_decide (r = Some (-1))); run; unfold print, log;
      cbn [state_of self trace mret M_ret].
    + split; [done|]. rewrite Htr. apply Forall_app. split; [|by constructor].
      by constructor.
    + split; [done|]. rewrite Htr. by constructor.
  - split; [done|]. rewrite Htr. by constructor.
Qed.

Lemma initial_histories_primary a :
  initial_histories a !! class_name (a_metric a) = Some ∅.
Proof.
  unfold initial_histories.
  generalize (a_extra_metrics a). intros extra.
  assert (∀ d : gmap string (gmap string run_entry),
            d !! class_name (a_metric a) = Some ∅ →
            foldl (λ d m, <[class_name m := ∅]> d) d extra
              !! class_name (a_metric a) = Some ∅) as H.
  { induction extra as [|m extra IH]; intros d Hd; [done|].
    cbn [foldl]. apply IH. rewrite lookup_insert. by case_decide. }
  apply H. by rewrite lookup_insert_eq.
Qed.

Lemma renamed_fields s s' :
  renamed s s' →
  x0 s' = x0 s ∧ y0 s' = y0 s ∧ model_runs s' = model_runs s ∧
  metric s' = metric s ∧ current_call s' = current_call s ∧
  dict_model_runs s' = dict_model_runs s ∧
  hyperparameters s' = hyperparameters s ∧
  number_of_call s' = number_of_call s ∧
  optimization_type s' = optimization_type s.
Proof. by intros (pn & sn & sp & mp & ->). Qed.

Lemma iteration_keys_empty a b : b ≤ a → iteration_keys a b = ∅.
Proof. intros H. unfold iteration_keys. by rewrite seqZ_nil by lia. Qed.

Lemma iteration_keys_succ a b :
  a ≤ b → iteration_keys a (b + 1) = iteration_keys a b ∪ {[iteration_key b]}.
Proof.
  intros H. unfold iteration_keys.
  replace (b + 1 - a) with (b - a + 1) by lia.
  rewrite seqZ_snoc by lia. rewrite fmap_app, list_to_set_app_L.
  replace (a + (b - a)) with b by lia. cbn. set_solver.
Qed.

Lemma optimize_history st name n :
  name = class_name (metric (self st)) →
  n = Z.to_nat (model_runs (self st)) →
  current_call (self st) = 0 →
  history_ok name ∅ n (dict_model_runs (self st)) →
  match optimize st with
  | Ok _ st' =>
      ∃ e stop,
        loop_summary 0 st st' e stop ∧
        history_ok name (iteration_keys (Py.len (x0 (self st))) e) n
          (dict_model_runs (self st'))
  | Raise _ _ => True
  end.
Proof.
  intros -> -> Hcc0 Hinit. unfold optimize. run.
  set (s := self st) in *.
  set (J := λ (i : Z) (_ : loop_locals) (st' : State),
    history_ok (class_name (metric s)) (iteration_keys (Py.len (x0 s)) i)
      (Z.to_nat (model_runs s)) (dict_model_runs (self st'))).
  match goal with
  | |- context [for_each optimize_body (Py.range ?n) ?l0 st] =>
      pose proof (loop_summary_holds optimize_body J 0 n l0 st
                    ltac:(done)) as H
  end.
  lapply H; clear H.
  2:{ unfold J. rewrite iteration_keys_empty by (unfold Py.len; lia). done. }
  intros H. lapply H; clear H.
  2:{ intros i l st' [Hi _] Hcfg Hcc HJ.
      destruct (same_config_fields _ _ Hcfg)
        as (Hx0 & _ & _ & Hmr & _ & _ & _ & Hm & _).
      fold s in Hx0, Hmr, Hm, Hcc.
      pose proof (optimize_body_spec i l st' Hi) as Hb.
      destruct (optimize_body i l st') as [[c l''] st''|]; [|done].
      destruct Hb as (x & f & pre & s1 & Hpath & Hdone).
      exists x, f, pre, s1.
      assert (dict_model_runs (self st'') = dict_model_runs s1) as Hd.
      { destruct Hdone as (r & stop & _ & _ & _ & _ & _ & _ & _ & _ & ->).
        by destruct stop. }
      destruct Hpath as [[Hlt Hseed]|[Hge Hask]].
      - destruct Hseed as (-> & -> & _).
        split. { exists (dict_model_runs (self st')).
                 by rewrite set_dict_model_runs_id. }
        split_and!; try done. unfold J in *. rewrite Hd.
        rewrite Hx0 in Hlt.
        rewrite iteration_keys_empty in * by lia. done.
      - destruct (asked_obs _ _ _ _ _ _ Hask)
          as (runs & Ht & _ & _ & _ & _ & Hs & _ & Hp & _).
        destruct Hask as (_ & ? & ? & d & _ & -> & _ & _ & _ & Hhist).
        split; [by exists d|]. split_and!; try done.
        unfold J in *. rewrite Hd. cbn [dict_model_runs set_dict_model_runs].
        rewrite Hx0 in Hge. rewrite iteration_keys_succ by lia.
        rewrite Hm, Hmr, Hcc, Hcc0 in Hhist.
        replace (0 + (i - 0)) with i in Hhist by lia. by apply Hhist. }
  unfold Py.range, Py.range2. rewrite Z.sub_0_r. intros H.
  destruct (for_each optimize_body _ _ st) as [l' st'|]; [|done].
  destruct H as (e & stop & Hsum & _ & _ & _ & _ & _ & HJ).
  run. destruct (results l'); run; [|done].
  exists e, stop. split; [done|]. by rewrite Z.add_0_l in HJ.
Qed.

Lemma check_rejects_small_budget st :
  number_of_call (self st) ≤ Py.len (x0 (self st)) →
  ∃ r msg,
    check_BO_parameters st =
      Ok r {| self := self st; world := world st;
              trace := trace st ++ [EvPrint msg] |} ∧
    r ≠ Some 0 ∧ String.prefix "Error: " msg = true.
Proof.
  intros Hn. unfold check_BO_parameters. run.
  assert ((number_of_call (self st) - Py.len (x0 (self st)) <=? 0) = true)
    as E1 by (apply Z.leb_le; lia).
  repeat match goal with
  | |- context [if negb ?b then _ else _] => destruct b; cbn [negb]; run
  end.
  all: try (destruct (number_of_call (self st) <=? 0) eqn:E0; run).
  all: rewrite ?E1; run.
  all: eexists _, _; split; [reflexivity|split; [discriminate|reflexivity]].
Qed.

(** C4 (amended): with a budget [number_of_call <= len(x0)] the validator
    does not report success and prints a diagnostic, before anything is
    evaluated, but no exception is raised: the constructor returns, and the
    object it leaves has the attributes as they were passed, without the
    normalisation of a successful validation. *)
Theorem small_budget_is_reported_not_raised a w :
  a_number_of_call a ≤ Py.len (a_x0 a) →
  let r := __init__ a w in
  succeeded r = true ∧
  self (state_of r) =
    set_dict_model_runs (initial_histories a) (new_optimizer a) ∧
  Forall construction_event (trace (state_of r)) ∧
  (∃ msg, EvPrint msg ∈ trace (state_of r) ∧
          String.prefix "Error: " msg = true) ∧
  ∃ v st1 st2, check_BO_parameters st1 = Ok v st2 ∧ v ≠ Some 0 ∧
               self st1 = self (state_of r).
Proof.
  intros Hn r. pose proof (init_spec a w) as [_ Hev]. subst r.
  unfold __init__, init_body in *. revert Hev. run.
  rewrite for_in_histories. run.
  match goal with
  | |- context [check_BO_parameters ?st1] =>
      destruct (check_rejects_small_budget st1 Hn)
        as (v & msg & Hchk & Hv & Hmsg); set (st_checked := st1) in *
  end.
  rewrite Hchk. intros Hev.
  assert (self st_checked =
          set_dict_model_runs (initial_histories a) (new_optimizer a))
    as Hself by done.
  destruct (bool_decide (v = Some (-1))); run; unfold print, log in *;
    cbn [state_of self trace succeeded mret M_ret] in *.
  - split_and!; try done.
    + exists msg. split; [|done]. set_solver.
    + by eexists v, st_checked, _.
  - split_and!; try done.
    + exists msg. split; [|done]. set_solver.
    + by eexists v, st_checked, _.
Qed.

Lemma iteration_key_in_keys a b j :
  a ≤ j < b → iteration_key j ∈ iteration_keys a b.
Proof.
  intros Hj. unfold iteration_keys. apply elem_of_list_to_set.
  apply list_elem_of_fmap. exists j. split; [done|].
  apply elem_of_seqZ. lia.
Qed.

(** C5 (amended): after a run of [optimize] on a freshly constructed
    optimizer that returns, the history of the primary metric has the key
    ['iteration_j'] for every iteration [j] that the harness evaluated
    before the last completed call, [len(x0) <= j < current_call], without
    gaps, and each of these keys holds a list of exactly [model_runs] raw
    scores.  When there are no seed points and the loop was not left by
    early stopping, the keys are exactly ['iteration_0'] ..
    ['iteration_(current_call-1)']. *)
Theorem history_keys_after_optimize a w :
  let st0 := state_of (__init__ a w) in
  let st' := state_of (optimize st0) in
  let n := Z.to_nat (a_model_runs a) in
  succeeded (__init__ a w) = true →
  succeeded (optimize st0) = true →
  ∃ history,
    dict_model_runs (self st') !! class_name (a_metric a) = Some history ∧
    (∀ j, Py.len (a_x0 a) ≤ j < current_call (self st') →
       ∃ runs, history !! iteration_key j = Some (RunList runs) ∧
               length runs = n) ∧
    (a_x0 a = [] → early_stopped (new_events st0 st') = false →
     dom history = iteration_keys 0 (current_call (self st'))).
Proof.
  intros st0 st' n _ Hok. subst st' n.
  destruct (init_spec a w) as [Hren _]. fold st0 in Hren.
  destruct (renamed_fields _ _ Hren)
    as (Hx0 & _ & Hmr & Hm & Hcc & Hd & _).
  cbn in Hx0, Hmr, Hm, Hcc, Hd.
  pose proof (optimize_history st0 (class_name (a_metric a))
                (Z.to_nat (a_model_runs a))) as H.
  rewrite Hm, Hmr, Hd in H. specialize (H eq_refl eq_refl Hcc).
  lapply H; clear H.
  2:{ exists ∅. split; [apply initial_histories_primary|].
      split; [apply dom_empty_L|]. intros k v. by rewrite lookup_empty. }
  intros H. destruct (optimize st0) as [r st'|]; [|done]. cbn [state_of].
  destruct H as (e & stop & Hsum & history & Hhist & Hdom & Hval).
  destruct Hsum as (new & Htr & _ & Hcur & Hes & _).
  rewrite (new_events_app _ _ _ Htr), Hes, Hcur, Hcc, Hx0 in *.
  exists history. split; [done|]. split.
  - intros j Hj.
    assert (iteration_key j ∈ dom history) as Hin.
    { rewrite Hdom. apply iteration_key_in_keys. destruct stop; lia. }
    apply elem_of_dom in Hin as [v Hv].
    destruct (Hval _ _ Hv) as (runs & -> & Hlen). by exists runs.
  - intros Hnil ->. rewrite Hdom, Hnil. f_equal. unfold Py.len. cbn. lia.
Qed.

(** ** What every run of a restart keeps *)

Lemma same_config_trans s1 s2 s3 :
  same_config s1 s2 → same_config s2 s3 → same_config s1 s3.
Proof. intros (d & c & ->) (d' & c' & ->). by exists d', c'. Qed.

Lemma restart_loop_frame k m l st :
  let R := λ st', ∃ new,
    trace st' = trace st ++ new ∧ same_config (self st) (self st') ∧
    tells new = told <$> harness_returns new ∧
    Forall (λ p, ∃ x, x ∈ asks new ∧
                      p = label (hyperparameters (self st)) x) (trains new) ∧
    Forall (harness_ok (self st)) (harness_returns new) in
  R (state_of (for_each restart_body (seqZ k m) l st)).
Proof.
  intros R.
  apply (for_range_inv restart_body (λ _ _ st', R st')
           (λ r, R (state_of r))); [done| |].
  2:{ exists []. rewrite app_nil_r.
      split_and!; [done|apply same_config_refl|done|constructor
                  |constructor]. }
  intros i l' st' _ (new & Htr & Hcfg & Htold & HF & Hoks).
  destruct (same_config_fields _ _ Hcfg) as (_ & _ & _ & _ & Hhp & _).
  pose proof (restart_body_spec i l' st') as Hb.
  assert (∀ x f pre s1 T st'',
    asked l' st' x f pre s1 →
    trace st'' =
      trace st' ++
      EvPrint (current_call_message (current_call (self st'))) :: pre ++ T →
    trains T = [] → tells T = [(x, f)] → harness_returns T = [] →
    same_config s1 (self st'') → R st'') as Hblock.
  { intros x f pre s1 T st'' Hask Htr' HT HT2 HT3 Hs.
    destruct (asked_obs _ _ _ _ _ _ Hask)
      as (runs & Ht' & Hh' & Hok & Hcfg1 & Hasks & _ & _ & _ & Htrains).
    exists (new ++ EvPrint (current_call_message (current_call (self st')))
              :: pre ++ T).
    split; [by rewrite Htr', Htr, <- app_assoc|].
    split. { eapply same_config_trans; [exact Hcfg|].
             by eapply same_config_trans. }
    change (EvPrint ?m :: pre ++ T) with ([EvPrint m] ++ pre ++ T).
    rewrite !trains_app, !tells_app, !harness_returns_app, !asks_app,
      HT, HT2, HT3, Ht', Hh', Htold, Hasks.
    cbn [trains tells harness_returns asks omap list_omap app].
    rewrite !app_nil_r, fmap_app. split; [done|]. split.
    - apply Forall_app. split.
      + eapply Forall_impl; [exact HF|]. cbn. intros p (x' & Hx' & ->).
        exists x'. split; [|done]. apply elem_of_app. by left.
      + eapply Forall_impl; [exact Htrains|]. cbn. intros p ->.
        rewrite Hhp. exists x. split; [|done].
        apply elem_of_app. right. by left.
    - apply Forall_app. split; [done|]. constructor; [|constructor].
      by eapply harness_ok_config. }
  destruct (restart_body i l' st') as [[c l''] st''|e st'']; cbn [state_of].
  - destruct Hb as (x & f & pre & s1 & Hask & Hdone).
    destruct Hdone as (r & stop & Htr' & _ & _ & _ & _ & _ & _ & Hc & Hs').
    assert (R st'') as HR.
    { eapply (Hblock x f pre s1); [done|exact Htr'|apply tail_trains
        |apply tail_tells|apply tail_harness_returns|].
      rewrite Hs'. destruct stop; [apply same_config_refl|].
      apply same_config_call, same_config_refl. }
    by destruct c.
  - destruct Hb as [Hr|(x & f & pre & s1 & _ & Hask & Hz)].
    + destruct Hr as (hnew & d & Hs' & Htr' & HFh).
      exists (new ++ EvPrint (current_call_message (current_call (self st')))
                :: EvAsk (ask (opt l')).1 :: hnew).
      split; [by rewrite Htr', Htr, <- app_assoc|].
      split. { rewrite Hs'. by apply same_config_dict. }
      change (EvPrint ?m :: EvAsk ?y :: hnew)
        with ([EvPrint m; EvAsk y] ++ hnew).
      rewrite !trains_app, !tells_app, !harness_returns_app, !asks_app,
        (internal_tells _ _ HFh), (internal_harness_returns _ _ HFh), Htold.
      cbn [trains tells harness_returns asks omap list_omap app].
      rewrite !app_nil_r. split; [done|]. split; [|done].
      apply Forall_app. split.
      * eapply Forall_impl; [exact HF|]. cbn. intros p (x' & Hx' & ->).
        exists x'. split; [|done]. apply elem_of_app. by left.
      * eapply Forall_impl; [exact (internal_trains _ _ HFh)|].
        cbn. intros p ->. rewrite Hhp. eexists. split; [|done].
        apply elem_of_app. right. by left.
    + destruct Hz as (_ & Hs' & tl & Htr' & HFp).
      eapply (Hblock x f pre s1 (EvTell x f :: tl)); [done|exact Htr'|..].
      * change (EvTell x f :: tl) with ([EvTell x f] ++ tl).
        by rewrite trains_app, (plots_trains _ HFp).
      * change (EvTell x f :: tl) with ([EvTell x f] ++ tl).
        by rewrite tells_app, (plots_tells _ HFp).
      * change (EvTell x f :: tl) with ([EvTell x f] ++ tl).
        by rewrite harness_returns_app, (plots_harness_returns _ HFp).
      * rewrite Hs'. apply same_config_refl.
Qed.

Lemma restart_frame a st :
  let B := r_BestObject a in
  let k := Py.len (bo_time B) in
  let s1 := restart_start a (self st) in
  let replayed := replay_pair B (hyperparameters (self st))
                    (optimization_type s1) in
  let st' := state_of (restart_optimize a st) in
  ∃ pre pairs rest,
    pre `prefix_of` Py.range k ∧
    Forall2 (λ i p, replayed i = Some p) pre pairs ∧
    (mapM replayed (Py.range k) = Some pairs ∨
     mapM replayed (Py.range k) = None ∧ rest = [] ∧
     ∃ i, Py.range k !! length pairs = Some i ∧ replayed i = None) ∧
    trace st' = trace st ++ (tell_event <$> pairs) ++ rest ∧
    same_config s1 (self st') ∧
    tells rest = told <$> harness_returns rest ∧
    Forall (λ p, ∃ x, x ∈ asks rest ∧
                      p = label (hyperparameters (self st)) x) (trains rest) ∧
    Forall (harness_ok s1) (harness_returns rest).
Proof.
  intros B k s1 replayed st'. subst st'.
  rewrite restart_optimize_unfold. fold B k s1. cbn zeta. run.
  pose proof (replay_loop_spec B k
    (choose_optimizer (reinitialize a (self st)) true)
    {| self := s1; world := world st; trace := trace st |}) as Hre.
  cbn [self world trace] in Hre. fold k.
  change (hyperparameters s1) with (hyperparameters (self st)) in Hre.
  fold replayed in Hre.
  destruct (for_each (replay_body B) _ _ _) as [o st2|e st2].
  - destruct Hre as (pairs & Hpairs & ->). run.
    match goal with
    | |- context [for_each restart_body (Py.range2 k ?n) ?l0 ?st2] =>
        pose proof (restart_loop_frame k (n - k) l0 st2) as Hloop;
        unfold Py.range2;
        destruct (for_each restart_body (seqZ k (n - k)) l0 st2)
          as [l' st'|e st']
    end; cbn [state_of self trace] in Hloop;
      destruct Hloop as (rest & Htr & Hcfg & Htold & HF & Hoks).
    + exists (Py.range k), pairs, rest. split; [done|].
      split; [by apply mapM_Some|]. split; [by left|].
      run. destruct (results l'); run;
        unfold raise; cbn [state_of mret M_ret].
      all: (split; [by rewrite Htr, <- app_assoc|done]).
    + exists (Py.range k), pairs, rest. split; [done|].
      split; [by apply mapM_Some|]. split; [by left|].
      cbn [state_of]. split; [by rewrite Htr, <- app_assoc|done].
  - destruct Hre as (Hnone & Hs & pre & pairs & Hpre & HF2 & Htr & i & Hi
                     & Hfail).
    exists pre, pairs, []. cbn [state_of]. split; [done|]. split; [done|].
    split.
    { right. split; [done|]. split; [done|]. exists i.
      by rewrite <- (Forall2_length _ _ _ HF2). }
    rewrite app_nil_r. split; [done|].
    split; [rewrite Hs; apply same_config_refl|].
    split; [done|]. split; constructor.
Qed.

Lemma replay_pair_Some B names otype i p :
  replay_pair B names otype i = Some p →
  mapM (λ key, bo_x_iters B !! key ≫= λ column, Py.index column i) names
    = Some p.1 ∧
  ∃ v, Py.index (bo_f_val B) i = Some v ∧ p.2 = signed otype v.
Proof.
  unfold replay_pair. destruct (mapM _ names) as [x|]; [|done]. cbn.
  destruct (Py.index (bo_f_val B) i) as [v|]; [|done]. cbn.
  intros [= <-]. eauto.
Qed.

(** C3 (amended): when the checkpoint holds a candidate and a value for
    each of its [k] iterations, [restart_optimize] first tells the fresh
    backend these [k] pairs, in order and before anything else happens;
    the value told for iteration [i] is the stored [f_val[i]] under
    ['Minimize'] and its negation under ['Maximize']. Every later [tell]
    carries a value returned by the harness. *)
Theorem replay_tells_checkpoint_values a st pairs :
  let B := r_BestObject a in
  let k := Py.len (bo_time B) in
  let otype := Py.or_else Py.truthy_str (r_optimization_type a)
                 (bo_optimization_type B) in
  let new := new_events st (state_of (restart_optimize a st)) in
  mapM (replay_pair B (hyperparameters (self st)) otype) (Py.range k)
    = Some pairs →
  ∃ rest,
    new = (tell_event <$> pairs) ++ rest ∧
    length pairs = Z.to_nat k ∧
    (∀ i p, pairs !! i = Some p →
       ∃ v, bo_f_val B !! i = Some v ∧ p.2 = signed otype v) ∧
    tells rest = told <$> harness_returns rest.
Proof.
  intros B k otype new Hpairs. subst new.
  destruct (restart_frame a st)
    as (pre & pairs' & rest & _ & _ & Hcase & Htr & _ & Htold & _).
  fold B k in Hcase.
  change (optimization_type (restart_start a (self st))) with otype in Hcase.
  destruct Hcase as [Hsome|[Hnone _]]; [|congruence].
  assert (pairs' = pairs) as -> by congruence.
  exists rest. split; [by apply new_events_app|].
  pose proof (length_mapM _ _ _ Hpairs) as Hlen.
  unfold Py.range, Py.range2 in *. rewrite Z.sub_0_r in *.
  rewrite length_seqZ in Hlen. split; [done|]. split; [|done].
  intros i p Hi. apply mapM_Some in Hpairs.
  destruct (Forall2_lookup_r _ _ _ _ _ Hpairs Hi) as (j & Hj & Hp).
  apply lookup_seqZ in Hj as [-> _].
  destruct (replay_pair_Some _ _ _ _ _ Hp) as (_ & v & Hv & Hsig).
  exists v. split; [|done]. by rewrite Z.add_0_l, index_of_nat in Hv.
Qed.

Lemma label_skips names x acc name :
  name ∉ names →
  foldl (λ (p : gmap string Value) nv, <[nv.1 := nv.2]> p) acc (zip names x)
    !! name = acc !! name.
Proof.
  revert x acc. induction names as [|n names IH]; intros x acc Hn; [done|].
  destruct x as [|v x]; [done|]. cbn [zip zip_with foldl fst snd].
  rewrite IH by set_solver. apply lookup_insert_ne. set_solver.
Qed.

(** Under an ordering without duplicates, the value at position [j] of a
    candidate goes to the name at position [j]. *)
Lemma label_lookup names x j name v :
  NoDup names → names !! j = Some name → x !! j = Some v →
  label names x !! name = Some v.
Proof.
  unfold label. generalize (∅ : gmap string Value).
  revert x j. induction names as [|n names IH]; intros x j acc Hnd Hj Hx;
    [done|].
  destruct x as [|v' x]; [done|]. cbn [zip zip_with foldl fst snd].
  apply NoDup_cons in Hnd as [Hn Hnd].
  destruct j as [|j].
  - cbn in Hj, Hx. injection Hj as ->. injection Hx as ->.
    rewrite label_skips by done. apply lookup_insert_eq.
  - by apply (IH x j).
Qed.

(** C9: the ordering [self.hyperparameters] is fixed by the constructor
    and is the keys of its search space in ascending order, each once;
    under it the value at position [j] of a candidate is the value of the
    [j]-th name.  [restart_optimize] keeps the ordering while it replaces
    [self.search_space] by its argument or by the checkpoint's.  The
    pairs that a restart replays are one for each iteration of the
    checkpoint, up to the first for which the checkpoint has no candidate
    or value, where the restart ends; the candidate replayed for iteration
    [i] holds, in the order of the kept names, the [i]-th entry of the
    column of each name.  After the replay every value told comes from a
    return of the harness, for a candidate whose raw scores were obtained
    by training on that candidate labelled with the kept names, and every
    training runs on a candidate proposed by the backend, labelled with
    the kept names. *)
Theorem hyperparameter_order_fixed_at_construction :
  (∀ a w,
     let names := hyperparameters (self (state_of (__init__ a w))) in
     names = sorted_keys (a_search_space a) ∧
     StronglySorted String.le names ∧ NoDup names ∧
     ∀ key, key ∈ names ↔ is_Some (a_search_space a !! key)) ∧
  (∀ x st,
     let names := hyperparameters (self st) in
     NoDup names → (length names ≤ length x)%nat →
     ∃ p, label_parameters x st = Ok p st ∧ p = label names x ∧
          ∀ j name, names !! j = Some name → p !! name = x !! j) ∧
  (∀ a st,
     let B := r_BestObject a in
     let k := Py.len (bo_time B) in
     let s1 := restart_start a (self st) in
     let st' := state_of (restart_optimize a st) in
     let names := hyperparameters (self st) in
     let replayed := replay_pair B names (optimization_type s1) in
     hyperparameters (self st') = names ∧
     search_space (self st') =
       Py.or_else truthy_dict (r_search_space a) (bo_search_space B) ∧
     ∃ pairs rest,
       new_events st st' = (tell_event <$> pairs) ++ rest ∧
       (mapM replayed (Py.range k) = Some pairs ∨
        mapM replayed (Py.range k) = None ∧ rest = [] ∧
        ∃ i, Py.range k !! length pairs = Some i ∧ replayed i = None) ∧
       (∀ i p, pairs !! i = Some p →
          Forall2 (λ key v, ∃ column, bo_x_iters B !! key = Some column ∧
                                      column !! i = Some v) names p.1) ∧
       tells rest = told <$> harness_returns rest ∧
       Forall (λ h, ∃ w w',
                 raw_primary_scores s1 (label names h.1.1)
                   (Z.to_nat (model_runs s1)) w = Some (h.1.2, w'))
         (harness_returns rest) ∧
       Forall (λ p, ∃ x, x ∈ asks rest ∧ p = label names x) (trains rest)).
Proof.
  split_and!.
  - intros a w names. subst names. destruct (init_spec a w) as [Hren _].
    destruct (renamed_fields _ _ Hren) as (_ & _ & _ & _ & _ & _ & -> & _).
    cbn [hyperparameters set_dict_model_runs new_optimizer].
    unfold sorted_keys. split; [done|].
    split; [apply StronglySorted_merge_sort; apply _|].
    split.
    + rewrite merge_sort_Permutation. apply NoDup_fst_map_to_list.
    + intros key. rewrite merge_sort_Permutation, list_elem_of_fmap.
      split.
      * intros ([k' v] & -> & Hin). apply elem_of_map_to_list in Hin. eauto.
      * intros [v Hv]. exists (key, v). split; [done|].
        by apply elem_of_map_to_list.
  - intros x st names Hnd Hlen.
    pose proof (label_parameters_run x st) as H. fold names in H.
    destruct (label_parameters x st) as [p st1|e st1] eqn:Hrun.
    + destruct H as [-> ->]. exists (label names x).
      split; [done|]. split; [done|]. intros j name Hj.
      assert (is_Some (x !! j)) as [v Hv].
      { apply lookup_lt_is_Some. apply lookup_lt_Some in Hj. lia. }
      rewrite Hv. by eapply label_lookup.
    + exfalso. revert Hrun. unfold label_parameters. run. fold names.
      unfold Py.range, Py.range2. rewrite Z.sub_0_r.
      apply (for_range_inv _
        (λ i (p : gmap string Value) st', st' = st ∧ 0 ≤ i)
        (λ r, r = Raise e st1 → False)).
      * done.
      * intros i p st' Hi (-> & Hi'). run.
        rewrite !index_nonneg by lia.
        assert (Z.to_nat i < length names)%nat by (unfold Py.len in *; lia).
        destruct (lookup_lt_is_Some_2 x (Z.to_nat i) ltac:(lia)) as [v ->].
        run.
        destruct (lookup_lt_is_Some_2 names (Z.to_nat i) ltac:(lia))
          as [nm ->].
        run. split; [done|lia].
      * done.
  - intros a st B k s1 st' names replayed. subst st'.
    destruct (restart_frame a st)
      as (pre & pairs & rest & Hpre & HF2 & Hcase & Htr & Hcfg & Htold
          & HF & Hok).
    fold B k s1 names replayed in Hpre, HF2, Hcase, HF.
    destruct (same_config_fields _ _ Hcfg)
      as (_ & _ & _ & _ & Hhp & _ & _ & _ & _ & Hss).
    rewrite (new_events_app _ _ _ Htr). split; [by rewrite Hhp|].
    split; [by rewrite Hss|].
    exists pairs, rest. split; [done|]. split; [done|]. split.
    { intros i p Hi.
      destruct (Forall2_lookup_r _ _ _ _ _ HF2 Hi) as (j & Hj & Hp).
      destruct Hpre as [post Hpost].
      assert (Py.range k !! i = Some j) as Hr
        by (rewrite Hpost; by apply lookup_app_l_Some).
      unfold Py.range, Py.range2 in Hr.
      apply lookup_seqZ in Hr as [-> _]. rewrite Z.add_0_l in Hp.
      destruct (replay_pair_Some _ _ _ _ _ Hp) as (Hx & _).
      apply mapM_Some in Hx.
      eapply Forall2_impl; [exact Hx|]. cbn. intros key v Hv.
      destruct (bo_x_iters B !! key) as [column|]; [|done].
      exists column. split; [done|]. cbn in Hv.
      by rewrite index_of_nat in Hv. }
    split; [done|]. split; [|done].
    eapply Forall_impl; [exact Hok|]. intros h (_ & _ & Hsc). exact Hsc.
Qed.

(** * Further properties of the optimizer *)

(** ** Edge cases of the loops *)




(** ** What a restart takes from its arguments *)





(** ** The validator and an empty save path *)


(** ** The histories that a restart fills in *)




(** ** Early stopping switched off *)


End Proofs.

(** * The scenarios, run

    The properties above at the concrete setting of [Scenario], and the
    inputs on which the optimizer departs from its description. *)

Module Runs.

Import Scenario.

(** The scenario of the specification: five raw scores, Minimize. *)
Example median_of_five_runs :
  Qmedian [(1 # 10); (5 # 10); (3 # 10); (5 # 10); (9 # 10)]%Q = (5 # 10)%Q.
Proof. reflexivity. Qed.

(** C2: with the seed point [[10]] and no score ([x0=[[10]], y0=[]],
    budget 3) the first iteration of [optimize] raises [IndexError] on
    [self.y0[i]], after the message of the call and before the harness is
    entered: no model is trained, nothing is returned by the harness and
    the backend is told nothing. *)
Theorem unscored_seed_point_raises :
  let st' := state_of (optimize (fresh unscored_args)) in
  raised (optimize (fresh unscored_args)) = Some Py.IndexError ∧
  new_events (fresh unscored_args) st' = [EvPrint "Current call:  0"] ∧
  trains (trace st') = [] ∧ harness_returns (trace st') = [] ∧
  tells (trace st') = [].
Proof. repeat split; vm_compute; reflexivity. Qed.

(** C3, as stated, fails: the checkpoint stores [f_val[0] = 1/2] and the
    direction is Maximize; the first value that the restart tells the
    backend is [-1/2]. *)
Lemma replayed_value_is_negated :
  tells (new_events (fresh seeded_args)
           (state_of (restart_optimize restart_args (fresh seeded_args))))
    !! 0%nat = Some ([10], (-1 # 2)%Q) ∧
  bo_f_val checkpoint !! 0%nat = Some (1 # 2)%Q ∧
  (-1 # 2)%Q ≠ (1 # 2)%Q ∧ ¬ (-1 # 2 == 1 # 2)%Q.
Proof.
  split; [vm_compute; reflexivity|].
  split; [vm_compute; reflexivity|]. split; [discriminate|].
  intros H. vm_compute in H. discriminate H.
Qed.

Lemma replay_tells_checkpoint_values_witness :
  let pairs := [([10], (-1 # 2)%Q); ([20], (-1 # 4)%Q);
                ([30], (-3 # 4)%Q); ([40], (-1 # 5)%Q)] in
  let st := fresh seeded_args in
  mapM (replay_pair checkpoint (hyperparameters (self st)) "Maximize")
    (Py.range 4) = Some pairs ∧
  ∃ rest,
    new_events st (state_of (restart_optimize restart_args st))
      = (tell_event <$> pairs) ++ rest ∧
    length pairs = Z.to_nat 4 ∧
    (∀ i p, pairs !! i = Some p →
       ∃ v, bo_f_val checkpoint !! i = Some v ∧ p.2 = signed "Maximize" v) ∧
    tells rest = told <$> harness_returns rest.
Proof.
  intros pairs st. split; [vm_compute; reflexivity|].
  apply (replay_tells_checkpoint_values restart_args st pairs).
  vm_compute; reflexivity.
Defined.

(** C4, as stated, fails: with two seed points and a budget of one call
    the constructor returns normally. *)
Lemma small_budget_constructs :
  a_number_of_call small_budget_args < Py.len (a_x0 small_budget_args) ∧
  succeeded (__init__ small_budget_args 0) = true ∧
  raised (__init__ small_budget_args 0) = None.
Proof. repeat split; vm_compute; reflexivity. Qed.

Lemma small_budget_is_reported_not_raised_witness :
  let a := small_budget_args in
  let r := __init__ a 0 in
  a_number_of_call a ≤ Py.len (a_x0 a) ∧
  (succeeded r = true ∧
   self (state_of r) =
     set_dict_model_runs (initial_histories a) (new_optimizer a) ∧
   Forall construction_event (trace (state_of r)) ∧
   (∃ msg, EvPrint msg ∈ trace (state_of r) ∧
           String.prefix "Error: " msg = true) ∧
   ∃ v st1 st2, check_BO_parameters st1 = Ok v st2 ∧ v ≠ Some 0 ∧
                self st1 = self (state_of r)).
Proof.
  intros a r.
  assert (a_number_of_call a ≤ Py.len (a_x0 a)) as H
    by (vm_compute; intros H; discriminate H).
  split; [exact H|]. exact (small_budget_is_reported_not_raised a 0 H).
Defined.

(** C5, as stated, fails: the run of the scenario (one seed point with
    its score, budget 3) returns with [current_call = 3], and the history
    of the metric has no key ['iteration_0']. *)
Lemma seeded_run_has_no_first_key :
  let st' := state_of (optimize (fresh seeded_args)) in
  succeeded (optimize (fresh seeded_args)) = true ∧
  current_call (self st') = 3 ∧
  (λ history : gmap string run_entry, history !! "iteration_0")
    <$> dict_model_runs (self st') !! "Coherence" = Some None.
Proof. repeat split; vm_compute; reflexivity. Qed.

Lemma history_keys_after_optimize_witness :
  let a := unseeded_args in
  let st0 := state_of (__init__ a 0) in
  let st' := state_of (optimize st0) in
  succeeded (__init__ a 0) = true ∧
  succeeded (optimize st0) = true ∧
  ∃ history,
    dict_model_runs (self st') !! class_name (a_metric a) = Some history ∧
    (∀ j, Py.len (a_x0 a) ≤ j < current_call (self st') →
       ∃ runs, history !! iteration_key j = Some (RunList runs) ∧
               length runs = Z.to_nat (a_model_runs a)) ∧
    (a_x0 a = [] → early_stopped (new_events st0 st') = false →
     dom history = iteration_keys 0 (current_call (self st'))).
Proof.
  intros a st0 st'.
  assert (succeeded (__init__ a 0) = true) as H1 by (vm_compute; reflexivity).
  assert (succeeded (optimize st0) = true) as H2 by (vm_compute; reflexivity).
  split; [exact H1|]. split; [exact H2|].
  exact (history_keys_after_optimize a 0 H1 H2).
Defined.

Lemma restart_continues_the_count_witness :
  let a := restart_args in
  let st := fresh seeded_args in
  let st' := state_of (restart_optimize a st) in
  let new := new_events st st' in
  succeeded (restart_optimize a st) = true ∧
  early_stopped new = false ∧
  number_of_call (self st') = 4 + 3 ∧
  current_call (self st') = 4 + 3 ∧
  prints new = current_call_message <$> seqZ 4 3 ∧
  length (tells new) = Z.to_nat (4 + 3).
Proof.
  intros a st st' new.
  assert (succeeded (restart_optimize a st) = true) as H1
    by (vm_compute; reflexivity).
  assert (early_stopped new = false) as H2 by (vm_compute; reflexivity).
  split; [exact H1|]. split; [exact H2|].
  exact (restart_continues_the_count a st H1 H2).
Defined.

Lemma checkpoint_cadence_witness :
  let st := fresh unseeded_args in
  let a := restart_args in
  (succeeded (optimize st) = true ∧
   let s := self st in
   let new := new_events st (state_of (optimize st)) in
   let e := Z.of_nat (length (tells new)) in
   save_step s ≠ 0 ∧
   0 < e ≤ number_of_call s ∧
   (early_stopped new = false → e = number_of_call s) ∧
   (λ c, c.1.1) <$> checkpoints new =
     filter (λ i, i `mod` save_step s = 0) (seqZ 0 e) ∧
   (∀ i, i ∈ saves new ↔ 0 ≤ i < e ∧ (save_step s | i)) ∧
   Forall (checkpoint_ok s 0 0 (tells new)) (checkpoints new)) ∧
  (succeeded (restart_optimize a st) = true ∧
   let s1 := restart_start a (self st) in
   let st' := state_of (restart_optimize a st) in
   let new := new_events st st' in
   let e := Z.of_nat (length (tells new)) - 4 in
   save_step s1 ≠ 0 ∧ save_step (self st') = save_step s1 ∧
   0 < e ≤ r_number_of_call a ∧
   (early_stopped new = false → e = r_number_of_call a) ∧
   (λ c, c.1.1) <$> checkpoints new =
     filter (λ i, i `mod` save_step s1 = 0) (seqZ 4 e) ∧
   (∀ i, i ∈ saves new ↔ 4 ≤ i < 4 + e ∧ (save_step s1 | i)) ∧
   Forall (checkpoint_ok s1 4 4 (drop 4 (tells new))) (checkpoints new)).
Proof.
  intros st a.
  assert (succeeded (optimize st) = true) as H1 by (vm_compute; reflexivity).
  assert (succeeded (restart_optimize a st) = true) as H2
    by (vm_compute; reflexivity).
  split.
  - split; [exact H1|]. exact (proj1 checkpoint_cadence st H1).
  - split; [exact H2|]. exact (proj2 checkpoint_cadence a st H2).
Defined.

(** C8: a successful validation of [save_name = "result.json"] stores
    ["result."]: the slice [[:-4]] keeps the dot of the five-character
    extension, where [plot_name = "B0_plot.png"] loses all of [".png"];
    the save path receives its ['/']. *)
Theorem json_extension_leaves_a_dot :
  let s := self (fresh extension_args) in
  succeeded (__init__ extension_args 0) = true ∧
  save_name s = "result." ∧ save_name s ≠ "result" ∧
  plot_name s = "B0_plot" ∧ save_path s = "results/".
Proof.
  repeat split; try (vm_compute; reflexivity).
  vm_compute. intros H. discriminate H.
Qed.

Lemma early_stop_not_consulted_on_seed_points_witness :
  let st := fresh seeded_args in
  0 ≤ 0 < Py.len (x0 (self st)) ∧
  ∃ new,
    trace (state_of (optimize_body 0 first_locals st)) = trace st ++ new ∧
    early_checks new = [] ∧ early_stopped new = false ∧
    ∀ c l' st', optimize_body 0 first_locals st = Ok (c, l') st' →
                c = Continue.
Proof.
  intros st.
  assert (0 ≤ 0 < Py.len (x0 (self st))) as H
    by (split; vm_compute; [intros H; discriminate H|reflexivity]).
  split; [exact H|].
  exact (early_stop_not_consulted_on_seed_points 0 first_locals st H).
Defined.

Lemma harness_value_is_told_witness :
  let st := fresh unseeded_args in
  let s := self st in
  let st' := state_of (_objective_function [7] st) in
  succeeded (_objective_function [7] st) = true ∧
  ∃ runs,
    scored s [7] runs (world st) (world st') ∧
    length runs = Z.to_nat (model_runs s) ∧
    returned (_objective_function [7] st) =
      Some (signed (optimization_type s) (median runs)) ∧
    last (trace st') =
      Some (EvHarness [7] runs
              (signed (optimization_type s) (median runs))) ∧
    (class_name (metric s) ∉ class_name <$> extra_metrics s →
     stored_runs s runs (dict_model_runs (self st'))).
Proof.
  intros st s st'.
  assert (succeeded (_objective_function [7] st) = true) as H
    by (vm_compute; reflexivity).
  split; [exact H|].
  exact (proj1 harness_value_is_told [7] st H).
Defined.

Lemma hyperparameter_order_fixed_at_construction_witness :
  let st := fresh seeded_args in
  let names := hyperparameters (self st) in
  NoDup names ∧ (length names ≤ length [7])%nat ∧
  ∃ p, label_parameters [7] st = Ok p st ∧ p = label names [7] ∧
       ∀ j name, names !! j = Some name → p !! name = [7] !! j.
Proof.
  intros st names.
  assert (NoDup names) as H1
    by (apply (bool_decide_unpack _); vm_compute; exact I).
  assert (length names ≤ length [7])%nat as H2 by (vm_compute; lia).
  split; [exact H1|]. split; [exact H2|].
  exact (proj1 (proj2 hyperparameter_order_fixed_at_construction)
           [7] st H1 H2).
Defined.







End Runs.
